(** * The MCP gateway: state store, metrics recorder, health prober,
      registry and connection tracker

    A shallow embedding of [src/mcp-gateway/gateway_server.py] and of the
    parts of [src/mcp-gateway/ui.py] that read and prune the gateway state.

    Conventions of the embedding.
    - A Python [dict] is a [gmap]; the metrics record of a child is itself a
      dict from key names to Python values, because the code creates records
      with different key sets and indexes them with [d[k]].
    - A method that mutates the shared [GatewayState] and may raise is a
      computation in the monad [M]: it takes the state and returns the state
      it leaves behind together with a value or the exception raised.  The
      state returned with an exception is the state at the raise.
    - The outside world (the network probe, the clock, the mounting of a
      child by FastMCP, [os.environ]) is passed in as arguments.
    - A latency is a Python float; it is represented by a rational and the
      rounding of float addition is not modelled.  A clock reading that the
      code only stores is the ISO text itself; a clock reading that the code
      parses back and subtracts is an integer number of microseconds. *)

From Stdlib Require Import ZArith QArith.
From stdpp Require Import gmap strings list fin_maps pretty.

Local Open Scope string_scope.
Local Open Scope Z_scope.

(** ** Python values and exceptions *)

Inductive pyval :=
| PNone
| PInt (n : Z)
| PFloat (x : Q)
| PStr (s : string).

Inductive exn :=
| KeyError (k : string)
| TypeError
| AttributeError
| ProbeFailure.

Inductive res (A : Type) :=
| Val (a : A)
| Exc (e : exn).
Arguments Val {A} a.
Arguments Exc {A} e.

(** [a + b] on Python values. *)
Definition py_add (a b : pyval) : res pyval :=
  match a, b with
  | PInt m, PInt n => Val (PInt (m + n))
  | PInt m, PFloat y => Val (PFloat (Qplus (inject_Z m) y))
  | PFloat x, PInt n => Val (PFloat (Qplus x (inject_Z n)))
  | PFloat x, PFloat y => Val (PFloat (Qplus x y))
  | PStr s, PStr t => Val (PStr (s ++ t))
  | _, _ => Exc TypeError
  end.

(** ** Configuration values

    A child entry of the configuration is a JSON object.  Its values are
    the strings and the objects of strings that the configuration schema
    has (url, prefix, the auth object, module_envvars); any field may be
    missing, and a field may hold an object where a string is expected. *)

Inductive jval :=
| JStr (s : string)
| JObj (o : gmap string string).

Abbreviation entry := (gmap string jval).
Abbreviation record := (gmap string pyval).

(** ** The state store *)

Record ActiveConnection := {
  connected_at : Z;
  last_seen : Z;
  requests : Z
}.

Record GatewayState := {
  child_servers : gmap string entry;
  metrics : gmap string record;
  start_time : Z;
  request_count : Z;
  error_count : Z;
  active_connections : gmap string ActiveConnection;
  last_activity : Z
}.

(** [GatewayState.__init__]; the two clock readings are [t0] and [t1]. *)
Definition initial_state (t0 t1 : Z) : GatewayState :=
  {| child_servers := ∅; metrics := ∅; start_time := t0;
     request_count := 0; error_count := 0;
     active_connections := ∅; last_activity := t1 |}.

Definition set_child_servers (c : gmap string entry) (s : GatewayState) :=
  {| child_servers := c; metrics := metrics s; start_time := start_time s;
     request_count := request_count s; error_count := error_count s;
     active_connections := active_connections s;
     last_activity := last_activity s |}.

Definition set_metrics (m : gmap string record) (s : GatewayState) :=
  {| child_servers := child_servers s; metrics := m;
     start_time := start_time s;
     request_count := request_count s; error_count := error_count s;
     active_connections := active_connections s;
     last_activity := last_activity s |}.

Definition set_request_count (n : Z) (s : GatewayState) :=
  {| child_servers := child_servers s; metrics := metrics s;
     start_time := start_time s;
     request_count := n; error_count := error_count s;
     active_connections := active_connections s;
     last_activity := last_activity s |}.

Definition set_error_count (n : Z) (s : GatewayState) :=
  {| child_servers := child_servers s; metrics := metrics s;
     start_time := start_time s;
     request_count := request_count s; error_count := n;
     active_connections := active_connections s;
     last_activity := last_activity s |}.

Definition set_active_connections (c : gmap string ActiveConnection)
    (s : GatewayState) :=
  {| child_servers := child_servers s; metrics := metrics s;
     start_time := start_time s;
     request_count := request_count s; error_count := error_count s;
     active_connections := c;
     last_activity := last_activity s |}.

Definition set_last_activity (t : Z) (s : GatewayState) :=
  {| child_servers := child_servers s; metrics := metrics s;
     start_time := start_time s;
     request_count := request_count s; error_count := error_count s;
     active_connections := active_connections s;
     last_activity := t |}.

(** ** The monad of state-mutating, possibly raising code *)

Definition M (A : Type) : Type := GatewayState → res A * GatewayState.

Definition ret {A} (a : A) : M A := λ s, (Val a, s).

Definition bind {A B} (c : M A) (k : A → M B) : M B :=
  λ s, match c s with
       | (Val a, s') => k a s'
       | (Exc e, s') => (Exc e, s')
       end.

Definition raise {A} (e : exn) : M A := λ s, (Exc e, s).

(** [try: body  except Exception: handler] *)
Definition try_except {A} (body : M A) (handler : exn → M A) : M A :=
  λ s, match body s with
       | (Val a, s') => (Val a, s')
       | (Exc e, s') => handler e s'
       end.

Definition get : M GatewayState := λ s, (Val s, s).
Definition modify (f : GatewayState → GatewayState) : M unit :=
  λ s, (Val tt, f s).

(** A pure computation that may raise, run inside [M]. *)
Definition lift {A} (r : res A) : M A := λ s, (r, s).

Declare Scope gw_scope.
Delimit Scope gw_scope with gw.
Notation "x <- c ;; k" := (bind c (λ x, k))
  (at level 100, c at next level, right associativity) : gw_scope.
Notation "c ;;; k" := (bind c (λ _, k))
  (at level 100, right associativity) : gw_scope.
Local Open Scope gw_scope.

(** ** Indexing the metrics map *)

(** [self.metrics[name][key] = v] *)
Definition set_item (name key : string) (v : pyval) : M unit :=
  λ s, match metrics s !! name with
       | None => (Exc (KeyError name), s)
       | Some r => (Val tt, set_metrics (<[name := <[key := v]> r]> (metrics s)) s)
       end.

(** [self.metrics[name][key] += v] *)
Definition iadd_item (name key : string) (v : pyval) : M unit :=
  λ s, match metrics s !! name with
       | None => (Exc (KeyError name), s)
       | Some r =>
           match r !! key with
           | None => (Exc (KeyError key), s)
           | Some old =>
               match py_add old v with
               | Exc e => (Exc e, s)
               | Val new =>
                   (Val tt, set_metrics (<[name := <[key := new]> r]> (metrics s)) s)
               end
           end
       end.

(** [if name not in self.metrics: self.metrics[name] = r] *)
Definition setdefault_record (name : string) (r : record) : M unit :=
  λ s, match metrics s !! name with
       | None => (Val tt, set_metrics (<[name := r]> (metrics s)) s)
       | Some _ => (Val tt, s)
       end.

(** ** Metrics recorder *)

Definition zeroed_record : record :=
  <["request_count" := PInt 0]>
  (<["error_count" := PInt 0]>
  (<["total_latency" := PInt 0]>
  (<["last_check" := PNone]>
  (<["status" := PStr "unknown"]>
  (<["connection_status" := PStr "disconnected"]> ∅))))).

(** [GatewayState.update_metrics]; [now] is the text of
    [utc_now().isoformat()] at the call. *)
Definition update_metrics (server_name : string) (latency : Q)
    (status : string) (now : string) : M unit :=
  setdefault_record server_name zeroed_record ;;;
  iadd_item server_name "request_count" (PInt 1) ;;;
  iadd_item server_name "total_latency" (PFloat latency) ;;;
  set_item server_name "last_check" (PStr now) ;;;
  set_item server_name "status" (PStr status) ;;;
  (if String.eqb status "healthy" then
     set_item server_name "connection_status" (PStr "connected")
   else if String.eqb status "error" then
     set_item server_name "connection_status" (PStr "failed") ;;;
     iadd_item server_name "error_count" (PInt 1) ;;;
     modify (λ s, set_error_count (error_count s + 1) s)
   else
     set_item server_name "connection_status" (PStr "unhealthy")) ;;;
  modify (λ s, set_request_count (request_count s + 1) s).

(** One call of the recorder, with the clock reading it sees. *)
Record observation := {
  obs_name : string;
  obs_latency : Q;
  obs_status : string;
  obs_now : string
}.

Definition record_observation (o : observation) : M unit :=
  update_metrics (obs_name o) (obs_latency o) (obs_status o) (obs_now o).

(** A sequence of recorder calls, first call first. *)
Fixpoint record_all (calls : list observation) : M unit :=
  match calls with
  | [] => ret tt
  | o :: rest => record_observation o ;;; record_all rest
  end.

(** Reading a counter of a child's record, as the dashboard does with
    [metrics.get(key, 0)] on [state.metrics.get(name, {})]. *)
Definition counter (s : GatewayState) (name key : string) : Z :=
  match metrics s !! name with
  | Some r => match r !! key with
              | Some (PInt n) => n
              | _ => 0
              end
  | None => 0
  end.

Definition requestCount (s : GatewayState) (name : string) : Z :=
  counter s name "request_count".
Definition errorCount (s : GatewayState) (name : string) : Z :=
  counter s name "error_count".

Definition names (name : string) (o : observation) : bool :=
  String.eqb (obs_name o) name.
Definition is_error (o : observation) : bool :=
  String.eqb (obs_status o) "error".

Definition calls_naming (name : string) (calls : list observation) : Z :=
  Z.of_nat (length (List.filter (names name) calls)).
Definition errors_naming (name : string) (calls : list observation) : Z :=
  Z.of_nat (length (List.filter (λ o, names name o && is_error o) calls)).

(** ** Strings and dictionaries as the handlers use them *)

(** [d[k]] *)
Definition getitem {V} (d : gmap string V) (k : string) : res V :=
  match d !! k with
  | Some v => Val v
  | None => Exc (KeyError k)
  end.

(** [s.replace(old, new)] for a non-empty [old]: occurrences are replaced
    from left to right without overlap.  [skip] counts the characters of a
    matched occurrence still to be dropped. *)
Fixpoint str_replace_from (old new : string) (skip : nat) (s : string)
    : string :=
  match s with
  | EmptyString => EmptyString
  | String c rest =>
      match skip with
      | S k => str_replace_from old new k rest
      | O =>
          if String.prefix old s
          then new ++ str_replace_from old new (String.length old - 1) rest
          else String c (str_replace_from old new 0 rest)
      end
  end.

Definition str_replace (old new s : string) : string :=
  str_replace_from old new 0 s.

(** [s.startswith(p)] *)
Definition startswith (p s : string) : bool := String.prefix p s.

(** [v.startswith(p)] and [v.replace(old, new)] on a configuration value:
    an object has neither method. *)
Definition j_startswith (p : string) (v : jval) : res bool :=
  match v with
  | JStr s => Val (startswith p s)
  | JObj _ => Exc AttributeError
  end.

Definition j_replace (old new : string) (v : jval) : res string :=
  match v with
  | JStr s => Val (str_replace old new s)
  | JObj _ => Exc AttributeError
  end.

(** [a + v] where [a] is a string *)
Definition j_concat (a : string) (v : jval) : res string :=
  match v with
  | JStr s => Val (a ++ s)
  | JObj _ => Exc TypeError
  end.

(** [v == lit] for a string literal *)
Definition j_is (lit : string) (v : jval) : bool :=
  match v with
  | JStr s => String.eqb s lit
  | JObj _ => false
  end.

(** [info["type"] == lit]: a value, or the [KeyError] of a missing key. *)
Definition type_is (lit : string) (info : entry) : res bool :=
  match getitem info "type" with
  | Val t => Val (j_is lit t)
  | Exc e => Exc e
  end.

Definition res_bind {A B} (r : res A) (k : A → res B) : res B :=
  match r with
  | Val a => k a
  | Exc e => Exc e
  end.

(** ** The network *)

(** What one [client.get(url, timeout=...)] does: it returns a response
    with a status code, or raises (timeout, refused connection, any other
    transport failure). *)
Inductive probe_result :=
| Response (status_code : Z)
| Unreachable.

(** The network as seen by the gateway: URL and timeout in seconds. *)
Definition network := string → Z → probe_result.

Definition client_get (net : network) (url : string) (timeout : Z)
    : res Z :=
  match net url timeout with
  | Response code => Val code
  | Unreachable => Exc ProbeFailure
  end.

(** ** Status API *)

(** A JSON response: the status code and the fields of the body that the
    embedding follows.  The body's [latency_ms], [timestamp], uptime and
    error-text fields are left out. *)
Record response := JSONResponse {
  status_code : Z;
  body : list (string * pyval)
}.

(** The health URL of [server_health_check] (lines 186-188). *)
Definition health_url_of (server_info : entry) : res string :=
  let health_url := default (JStr "/health") (server_info !! "health_endpoint") in
  res_bind (j_startswith "http" health_url) (λ is_http,
    if negb is_http then
      res_bind (getitem server_info "url") (λ url,
      res_bind (j_replace "/mcp" "" url) (λ base,
      j_concat base health_url))
    else
      match health_url with
      | JStr u => Val u
      | JObj _ => Exc AttributeError
      end).

(** [server_health_check], the handler of [GET /health/{server_name}].
    [latency] is the elapsed time the handler measures and [now] the text
    of the clock reading [update_metrics] takes. *)
Definition server_health_check (net : network) (latency : Q) (now : string)
    (server_name : string) : M response :=
  s <- get ;;
  match child_servers s !! server_name with
  | None =>
      ret (JSONResponse 404
             [("error", PStr ("Server '" ++ server_name ++ "' not found"))])
  | Some server_info =>
      is_proxy <- lift (type_is "proxy" server_info) ;;
      if is_proxy : bool then
        try_except
          (health_url <- lift (health_url_of server_info) ;;
           code <- lift (client_get net health_url 5) ;;
           let status := if code =? 200 then "healthy" else "unhealthy" in
           update_metrics server_name latency status now ;;;
           ret (JSONResponse 200
                  [("server", PStr server_name); ("type", PStr "proxy");
                   ("status", PStr status); ("response_code", PInt code)]))
          (λ e,
           update_metrics server_name latency "error" now ;;;
           ret (JSONResponse 503
                  [("server", PStr server_name); ("type", PStr "proxy");
                   ("status", PStr "error")]))
      else
        update_metrics server_name latency "healthy" now ;;;
        ret (JSONResponse 200
               [("server", PStr server_name); ("type", PStr "mount");
                ("status", PStr "healthy")])
  end.

(** ** Health prober *)

(** [for x in l: body(x)] *)
Fixpoint for_each {A} (l : list A) (body : A → M unit) : M unit :=
  match l with
  | [] => ret tt
  | x :: rest => body x ;;; for_each rest body
  end.

(** The health URL of [check_proxy] (lines 97-102). *)
Definition check_url_of (info : entry) : res string :=
  res_bind (j_replace "/mcp" "" (default (JStr "") (info !! "url"))) (λ url,
  let health_endpoint := default (JStr "/health") (info !! "health_endpoint") in
  res_bind (j_startswith "http" health_endpoint) (λ is_http,
    if negb is_http then j_concat url health_endpoint
    else
      match health_endpoint with
      | JStr u => Val u
      | JObj _ => Exc AttributeError
      end)).

(** [check_proxy(name, info)], the body of one probe task. *)
Definition check_proxy (net : network) (now : string)
    (item : string * entry) : M unit :=
  let '(name, info) := item in
  is_proxy <- lift (type_is "proxy" info) ;;
  if negb is_proxy then ret tt
  else
    try_except
      (health_url <- lift (check_url_of info) ;;
       code <- lift (client_get net health_url 2) ;;
       if code =? 200 then
         setdefault_record name ∅ ;;;
         set_item name "connection_status" (PStr "connected") ;;;
         set_item name "last_check" (PStr now)
       else
         setdefault_record name ∅ ;;;
         set_item name "connection_status" (PStr "unhealthy"))
      (λ _,
       setdefault_record name ∅ ;;;
       set_item name "connection_status" (PStr "disconnected")).

Definition module_record (now : string) : record :=
  <["request_count" := PInt 0]>
  (<["error_count" := PInt 0]>
  (<["total_latency" := PInt 0]>
  (<["last_check" := PStr now]>
  (<["status" := PStr "healthy"]> ∅)))).

(** The body of the loop over module children (lines 120-130). *)
Definition check_module (now : string) (item : string * entry) : M unit :=
  let '(name, info) := item in
  is_module <- lift (type_is "module" info) ;;
  if is_module : bool then
    setdefault_record name (module_record now) ;;;
    set_item name "connection_status" (PStr "connected")
  else ret tt.

(** The list comprehension of [run_checks]: the items whose type is
    "proxy"; [info["type"]] raises on an entry without that key. *)
Fixpoint proxy_items (items : list (string * entry))
    : res (list (string * entry)) :=
  match items with
  | [] => Val []
  | (name, info) :: rest =>
      res_bind (type_is "proxy" info) (λ is_proxy,
      res_bind (proxy_items rest) (λ tasks,
      Val (if is_proxy : bool then (name, info) :: tasks else tasks)))
  end.

(** [GatewayState.check_server_connections].  The probe tasks of one batch
    each touch the metrics record of their own child only, so the batch is
    run here one task after the other, to completion.  (In the source the
    batch is awaited with [asyncio.gather]; when an event loop is already
    running it is scheduled on that loop and completes after the call has
    returned.)  The children are visited in the key order of the map; the
    source visits them in insertion order. *)
Definition check_server_connections (net : network) (now : string) : M unit :=
  s <- get ;;
  let items := map_to_list (child_servers s) in
  for_each items (check_module now) ;;;
  tasks <- lift (proxy_items items) ;;
  for_each tasks (check_proxy net now).

(** ** Aggregate status *)

Definition py_gt0 (v : pyval) : res bool :=
  match v with
  | PInt n => Val (0 <? n)
  | PFloat x => Val (0 <? Qnum x)
  | _ => Exc TypeError
  end.

Definition to_Q (v : pyval) : res Q :=
  match v with
  | PInt n => Val (inject_Z n)
  | PFloat x => Val x
  | _ => Exc TypeError
  end.

(** [a / b]; the callers divide by a positive count only. *)
Definition py_truediv (a b : pyval) : res Q :=
  res_bind (to_Q a) (λ x, res_bind (to_Q b) (λ y, Val (Qdiv x y))).

(** [round(x, 2)] on the rational: nearest multiple of 1/100, ties to
    even. *)
Definition round_half_even (q : Q) : Z :=
  let n := Qnum q in
  let d := Z.pos (Qden q) in
  let f := n / d in
  let r2 := 2 * (n mod d) in
  if r2 <? d then f
  else if d <? r2 then f + 1
  else if Z.even f then f else f + 1.

Definition py_round2 (q : Q) : Q :=
  Qmake (round_half_even (Qmult q (inject_Z 100))) 100.

(** The body of the loop of [status] for one child.  The dict put under
    ["metrics"] is the child's record of [state.metrics] itself, so the
    average latency is written into the shared record. *)
Definition status_of_child (item : string * entry) : M unit :=
  let '(name, info) := item in
  lift (getitem info "type") ;;;
  s <- get ;;
  match metrics s !! name with
  | None => ret tt
  | Some r =>
      count <- lift (getitem r "request_count") ;;
      positive <- lift (py_gt0 count) ;;
      if positive : bool then
        total <- lift (getitem r "total_latency") ;;
        count' <- lift (getitem r "request_count") ;;
        avg_latency <- lift (py_truediv total count') ;;
        set_item name "average_latency_ms" (PFloat (py_round2 avg_latency))
      else ret tt
  end.

(** [status], the handler of [GET /status]; the value is the list of the
    children with the metrics record serialized for each. *)
Definition status : M (list (string * record)) :=
  s <- get ;;
  let items := map_to_list (child_servers s) in
  for_each items status_of_child ;;;
  s' <- get ;;
  ret (List.map (λ item : string * entry,
                   (item.1, default ∅ (metrics s' !! item.1))) items).

(** ** Registry / mounter *)

(** What FastMCP's [ProxyClient(url)] is built from.  The constructor is
    called with the URL alone; a client built that way sends no headers
    other than the transport's own. *)
Record ProxyClient := {
  pc_url : jval;
  pc_headers : gmap string string
}.

Definition ProxyClient_of_url (url : jval) : ProxyClient :=
  {| pc_url := url; pc_headers := ∅ |}.

(** A child attached to the gateway by [gateway.mount(server, prefix)]. *)
Inductive mount :=
| MountProxy (client : ProxyClient) (name prefix : jval)
| MountModule (name prefix : jval).

(** How the attempt to resolve, initialize and mount a module child ends:
    each failure is one of the [continue] sites of the module branch. *)
Inductive module_outcome :=
| ModulePathMissing
| ModuleNotImported
| ModuleImportError
| ModuleNoHandle
| ModuleRaised
| ModuleMounted.

(** FastMCP, the file system and the import machinery, as far as the
    loader depends on them. *)
Record world := {
  (** [ProxyClient(url)], [FastMCP.as_proxy] and [gateway.mount] all
      succeed for this url, name and prefix *)
  proxy_mounts : jval → jval → jval → bool;
  (** the outcome of the module branch for this entry, under the given
      environment *)
  module_mounts : gmap string string → entry → module_outcome
}.

Inductive log_event :=
| LogRegistering (name : jval)
| LogMounted (name : jval)
| LogMountFailed (name : jval)
| LogConfigFailed (e : exn).

(** What the loader reads and writes: the gateway state, [os.environ],
    the children attached to the gateway, and the log. *)
Record loader_state := {
  gw : GatewayState;
  environ : gmap string string;
  mounted : list mount;
  log : list log_event
}.

Definition add_log (ev : log_event) (st : loader_state) : loader_state :=
  {| gw := gw st; environ := environ st; mounted := mounted st;
     log := log st ++ [ev] |}.

Definition add_mount (m : mount) (st : loader_state) : loader_state :=
  {| gw := gw st; environ := environ st; mounted := mounted st ++ [m];
     log := log st |}.

Definition set_environ (env : gmap string string) (st : loader_state)
    : loader_state :=
  {| gw := gw st; environ := env; mounted := mounted st; log := log st |}.

Definition set_gw (g : GatewayState) (st : loader_state) : loader_state :=
  {| gw := g; environ := environ st; mounted := mounted st; log := log st |}.

(** One iteration of the loop ends by going on to the next entry (at the
    end of the body or at a [continue]), or by raising out of the loop. *)
Inductive step_result :=
| Next (st : loader_state)
| Abort (e : exn) (st : loader_state).

(** The [headers] dict of the proxy branch (lines 308-313). *)
Definition bearer_headers (env : gmap string string) (server_config : entry)
    : res (gmap string string) :=
  match server_config !! "auth" with
  | None => Val ∅
  | Some (JStr _) => Exc TypeError
  | Some (JObj auth) =>
      res_bind (getitem auth "type") (λ auth_type,
        if String.eqb auth_type "bearer" then
          res_bind (getitem auth "token") (λ tok,
            let token := default tok (env !! tok) in
            Val {[ "Authorization" := "Bearer " ++ token ]})
        else Val ∅)
  end.

(** [state.child_servers[name] = server_config] (line 443); an object is
    not hashable. *)
Definition store_descriptor (name : jval) (server_config : entry)
    (st : loader_state) : step_result :=
  match name with
  | JStr n =>
      Next (set_gw (set_child_servers
                      (<[n := server_config]> (child_servers (gw st)))
                      (gw st)) st)
  | JObj _ => Abort TypeError st
  end.

(** [for k, v in module_envvars.items(): if k: os.environ[k] = v] *)
Definition inject_envvars (vars env : gmap string string)
    : gmap string string :=
  filter (λ kv, kv.1 ≠ "") vars ∪ env.

(** The body of the loop over [config["child_servers"]] (lines 297-443). *)
Definition load_entry (w : world) (server_config : entry)
    (st : loader_state) : step_result :=
  match server_config !! "name" with
  | None => Abort (KeyError "name") st
  | Some name =>
  match server_config !! "type" with
  | None => Abort (KeyError "type") st
  | Some server_type =>
      let prefix := default (JStr "") (server_config !! "prefix") in
      let st := add_log (LogRegistering name) st in
      if j_is "proxy" server_type then
        match server_config !! "url" with
        | None => Abort (KeyError "url") st
        | Some url =>
            match bearer_headers (environ st) server_config with
            | Exc e => Abort e st
            | Val headers =>
                if proxy_mounts w url name prefix then
                  let proxy_client := ProxyClient_of_url url in
                  store_descriptor name server_config
                    (add_log (LogMounted name)
                       (add_mount (MountProxy proxy_client name prefix) st))
                else Next (add_log (LogMountFailed name) st)
            end
        end
      else if j_is "module" server_type then
        match default (JObj ∅) (server_config !! "module_envvars") with
        | JStr _ => Next (add_log (LogMountFailed name) st)
        | JObj module_envvars =>
            let st := set_environ (inject_envvars module_envvars (environ st)) st in
            match module_mounts w (environ st) server_config with
            | ModuleMounted =>
                store_descriptor name server_config
                  (add_log (LogMounted name)
                     (add_mount (MountModule name prefix) st))
            | _ => Next (add_log (LogMountFailed name) st)
            end
        end
      else store_descriptor name server_config st
  end
  end.

(** The loop, inside the [try] that encloses it: an exception raised by an
    iteration ends the loop and is logged by the handler at line 445. *)
Fixpoint load_entries (w : world) (entries : list entry)
    (st : loader_state) : loader_state :=
  match entries with
  | [] => st
  | server_config :: rest =>
      match load_entry w server_config st with
      | Next st' => load_entries w rest st'
      | Abort e st' => add_log (LogConfigFailed e) st'
      end
  end.

(** [load_child_servers], from the parsed configuration on: [None] is a
    configuration file that does not exist or does not parse, [Some l] the
    list under the key "child_servers" (empty when the key is missing). *)
Definition load_child_servers (w : world) (config : option (list entry))
    (st : loader_state) : loader_state :=
  match config with
  | None => st
  | Some entries => load_entries w entries st
  end.

(** ** Request middleware / connection tracker *)

(** The ASGI scope of a request, as far as the middleware reads it. *)
Record scope := {
  scope_type : string;
  path : string;
  method : string;
  client : option (string * Z)
}.

(** [f"{client[0]}:{client[1]}"] with the default [("unknown", 0)] *)
Definition client_addr (sc : scope) : string :=
  let c := default ("unknown", 0) (client sc) in
  c.1 ++ ":" ++ pretty c.2.

(** [LoggingMiddleware.__call__] up to the call of the wrapped
    application (lines 481-501); [now] is the clock reading. *)
Definition track_request (now : Z) (sc : scope) (s : GatewayState)
    : GatewayState :=
  if String.eqb (scope_type sc) "http" then
    if String.eqb (path sc) "/mcp" && String.eqb (method sc) "POST" then
      let s := set_last_activity now s in
      let addr := client_addr sc in
      let seen :=
        match active_connections s !! addr with
        | Some c => requests c
        | None => 0
        end in
      set_active_connections
        (<[addr := {| connected_at := now; last_seen := now;
                      requests := seen + 1 |}]> (active_connections s)) s
    else s
  else s.

(** [send_wrapper] on the message that starts the response
    (lines 505-512). *)
Definition track_response (now : Z) (sc : scope) (s : GatewayState)
    : GatewayState :=
  if String.eqb (scope_type sc) "http" then
    let addr := client_addr sc in
    match active_connections s !! addr with
    | Some c =>
        set_active_connections
          (<[addr := {| connected_at := connected_at c; last_seen := now;
                        requests := requests c |}]> (active_connections s)) s
    | None => s
    end
  else s.

(** ** Dashboard: what it reads of the active connections *)

Definition idle_threshold_us : Z := 30 * 1000000.

(** [make_header]: the number of clients it displays
    ([len(state.active_connections)], ui.py line 108). *)
Definition make_header (s : GatewayState) : nat :=
  size (active_connections s).

(** The clean-up loop of [make_info_panel] (ui.py lines 234-243):
    [(current_time - last_seen).total_seconds() > 30] on instants counted
    in microseconds. *)
Definition prune_step (current_time : Z) (client_addr : string)
    (conns : gmap string ActiveConnection) : gmap string ActiveConnection :=
  match conns !! client_addr with
  | Some c =>
      if idle_threshold_us <? current_time - last_seen c
      then delete client_addr conns
      else conns
  | None => conns
  end.

(** The loop runs over [list(state.active_connections.keys())], a copy of
    the keys taken before the first deletion, so every key it visits is
    still present when it is visited. *)
Fixpoint prune_loop (current_time : Z) (keys : list string)
    (conns : gmap string ActiveConnection) : gmap string ActiveConnection :=
  match keys with
  | [] => conns
  | client_addr :: rest =>
      prune_loop current_time rest (prune_step current_time client_addr conns)
  end.

Definition prune_connections (current_time : Z)
    (conns : gmap string ActiveConnection) : gmap string ActiveConnection :=
  prune_loop current_time (map_to_list conns).*1 conns.

(** [make_info_panel]: the state it leaves and the addresses of the
    clients it counts as active after the clean-up (it prints the first
    two of them). *)
Definition make_info_panel (current_time : Z) (s : GatewayState)
    : list string * GatewayState :=
  let conns := prune_connections current_time (active_connections s) in
  ((map_to_list conns).*1, set_active_connections conns s).

(** [update_display]: the header is drawn before the info panel. *)
Definition update_display (current_time : Z) (s : GatewayState)
    : nat * list string * GatewayState :=
  let header := make_header s in
  let '(clients, s') := make_info_panel current_time s in
  (header, clients, s').

(** ** Predicates used to state the properties of the recorder *)

(** [s'] differs from [s] at most in the metrics record of [name]. *)
Definition only_record_changed (name : string) (s s' : GatewayState) : Prop :=
  child_servers s' = child_servers s ∧
  start_time s' = start_time s ∧
  request_count s' = request_count s ∧
  error_count s' = error_count s ∧
  active_connections s' = active_connections s ∧
  last_activity s' = last_activity s ∧
  ∀ other, other ≠ name → metrics s' !! other = metrics s !! other.

Definition is_num (v : pyval) : Prop :=
  match v with PInt _ | PFloat _ => True | _ => False end.

(** A record on which the recorder's three [+=] succeed. *)
Definition counted (r : record) (n e : Z) : Prop :=
  r !! "request_count" = Some (PInt n) ∧
  r !! "error_count" = Some (PInt e) ∧
  ∃ t, r !! "total_latency" = Some t ∧ is_num t.

Definition connection_of (status : string) : string :=
  if String.eqb status "healthy" then "connected"
  else if String.eqb status "error" then "failed"
  else "unhealthy".

Definition error_incr (status : string) : Z :=
  if String.eqb status "error" then 1 else 0.

(** Every record of the metrics map carries the three counters. *)
Definition all_counted (s : GatewayState) : Prop :=
  ∀ name r, metrics s !! name = Some r → ∃ n e, counted r n e.

(** ** Reading the state, and the inputs the examples run on *)

(** [state.metrics[name][key]] when both keys are present. *)
Definition metric_of (s : GatewayState) (name key : string) : option pyval :=
  match metrics s !! name with
  | Some r => r !! key
  | None => None
  end.

(** [s'] differs from [s] in the metrics map only. *)
Definition only_metrics_changed (s s' : GatewayState) : Prop :=
  child_servers s' = child_servers s ∧
  start_time s' = start_time s ∧
  request_count s' = request_count s ∧
  error_count s' = error_count s ∧
  active_connections s' = active_connections s ∧
  last_activity s' = last_activity s.

(** Every descriptor of the state store has a ["type"]. *)
Definition typed_children (s : GatewayState) : Prop :=
  ∀ name info, child_servers s !! name = Some info → is_Some (info !! "type").

(** The connection status that one probe of [check_proxy] is classified
    as. *)
Definition probe_status (net : network) (info : entry) : string :=
  match check_url_of info with
  | Exc _ => "disconnected"
  | Val url =>
      match net url 2 with
      | Response code => if code =? 200 then "connected" else "unhealthy"
      | Unreachable => "disconnected"
      end
  end.

(** A proxy child as the configuration describes it. *)
Definition proxy_entry (name url : string) : entry :=
  <["name" := JStr name]>
  (<["type" := JStr "proxy"]>
  (<["prefix" := JStr name]>
  (<["url" := JStr url]> ∅))).

Definition module_entry (name module_name : string) : entry :=
  <["name" := JStr name]>
  (<["type" := JStr "module"]>
  (<["prefix" := JStr name]>
  (<["module_name" := JStr module_name]> ∅))).

(** A gateway with the single proxy child [ado] and no metrics yet. *)
Definition one_proxy_state : GatewayState :=
  set_child_servers
    {[ "ado" := proxy_entry "ado" "http://localhost:8002/mcp" ]}
    (initial_state 0 0).

(** A network on which every health endpoint answers 200, and one on
    which every request times out. *)
Definition net_ok : network := λ _ _, Response 200.
Definition net_down : network := λ _ _, Unreachable.

(** A [POST /mcp] from 10.0.0.1, port 5000. *)
Definition mcp_post : scope :=
  {| scope_type := "http"; path := "/mcp"; method := "POST";
     client := Some ("10.0.0.1", 5000) |}.

(** A connection is idle at [current_time] when its [last_seen] lies more
    than 30 seconds back. *)
Definition idle (current_time : Z) (c : ActiveConnection) : bool :=
  idle_threshold_us <? current_time - last_seen c.

(** The mount attempt of a Proxy entry fails: the entry is well formed up
    to the [try] of the proxy branch, and building or mounting the proxy
    raises. *)
Definition proxy_mount_fails (w : world) (env : gmap string string)
    (server_config : entry) : Prop :=
  ∃ name server_type url headers,
    server_config !! "name" = Some name ∧
    server_config !! "type" = Some server_type ∧
    j_is "proxy" server_type = true ∧
    server_config !! "url" = Some url ∧
    bearer_headers env server_config = Val headers ∧
    proxy_mounts w url name
      (default (JStr "") (server_config !! "prefix")) = false.

(** The mount attempt of a Module entry fails: inside the [try] of the
    module branch the path is missing, the import or the initializer
    fails, no handle is found, or anything else raises. *)
Definition module_mount_fails (w : world) (env : gmap string string)
    (server_config : entry) : Prop :=
  ∃ name server_type,
    server_config !! "name" = Some name ∧
    server_config !! "type" = Some server_type ∧
    j_is "proxy" server_type = false ∧
    j_is "module" server_type = true ∧
    match default (JObj ∅) (server_config !! "module_envvars") with
    | JStr _ => True
    | JObj vars =>
        module_mounts w (inject_envvars vars env) server_config
          ≠ ModuleMounted
    end.

Definition mount_fails (w : world) (env : gmap string string)
    (server_config : entry) : Prop :=
  proxy_mount_fails w env server_config ∨
  module_mount_fails w env server_config.

(** A world in which every mount succeeds, and one in which none does. *)
Definition world_mounting : world :=
  {| proxy_mounts := λ _ _ _, true;
     module_mounts := λ _ _, ModuleMounted |}.

Definition world_failing : world :=
  {| proxy_mounts := λ _ _ _, false;
     module_mounts := λ _ _, ModuleImportError |}.

(** The loader's state at startup, under the environment [env]. *)
Definition loader_start (env : gmap string string) : loader_state :=
  {| gw := initial_state 0 0; environ := env; mounted := []; log := [] |}.

Definition ado_entry : entry := proxy_entry "ado" "http://localhost:8002/mcp".

(** A Proxy entry without the [name] field. *)
Definition nameless_entry : entry :=
  <["type" := JStr "proxy"]>
  (<["prefix" := JStr "docs"]>
  (<["url" := JStr "http://localhost:8003/mcp"]> ∅)).

(** A Proxy entry with bearer authentication whose token names an
    environment variable. *)
Definition bearer_entry : entry :=
  <["auth" := JObj (<["type" := "bearer"]> (<["token" := "ADO_TOKEN"]> ∅))]>
    ado_entry.

Definition bearer_environ : gmap string string :=
  {[ "ADO_TOKEN" := "s3cret" ]}.

(** The clients of the Proxy children attached to the gateway. *)
Definition proxy_clients (st : loader_state) : list ProxyClient :=
  omap (λ m, match m with
             | MountProxy client _ _ => Some client
             | MountModule _ _ => None
             end) (mounted st).

(** [info["type"] == lit] for a descriptor that has a ["type"]. *)
Definition has_type (lit : string) (info : entry) : bool :=
  match info !! "type" with
  | Some t => j_is lit t
  | None => false
  end.

(** What one iteration of the module loop does to the record of its
    child. *)
Definition module_loop_effect (info : entry) (old new : option record)
    : Prop :=
  if has_type "module" info
  then ∃ r, new = Some r ∧ r !! "connection_status" = Some (PStr "connected")
  else new = old.

(** What one probe task does to the record of its child. *)
Definition probe_effect (net : network) (info : entry)
    (old new : option record) : Prop :=
  ∃ r, new = Some r ∧
       r !! "connection_status" = Some (PStr (probe_status net info)).

(** A gateway with the proxy child [ado] and the module child [docs]. *)
Definition two_children_state : GatewayState :=
  set_child_servers
    (<["docs" := module_entry "docs" "mcp_server"]>
       {[ "ado" := proxy_entry "ado" "http://localhost:8002/mcp" ]})
    (initial_state 0 0).

(** ** Further readings of the state, used by the properties below *)

(** The cumulative latency of a child as a number: [total_latency] read
    with [metrics.get("total_latency", 0)] on [state.metrics.get(name, {})]. *)
Definition total_latency_of (s : GatewayState) (name : string) : Q :=
  match metric_of s name "total_latency" with
  | Some (PInt n) => inject_Z n
  | Some (PFloat x) => x
  | _ => inject_Z 0
  end.

(** The latencies of the calls naming a child, first call first, and
    their sum accumulated the way [+=] does, starting from the integer 0
    of a fresh record. *)
Definition latencies_naming (name : string) (calls : list observation)
    : list Q :=
  List.map obs_latency (List.filter (names name) calls).

Definition accumulate (acc : Q) (latencies : list Q) : Q :=
  fold_left Qplus latencies acc.

Definition errors_of (calls : list observation) : Z :=
  Z.of_nat (length (List.filter is_error calls)).


(** [old] occurs in [s]. *)
Definition occurs (old s : string) : Prop :=
  ∃ pre post, s = pre ++ old ++ post.

(** [GET /metrics]: the derived error rate,
    [state.error_count / max(state.request_count, 1)] (line 269). *)
Definition error_rate (s : GatewayState) : Q :=
  Qdiv (inject_Z (error_count s)) (inject_Z (Z.max (request_count s) 1)).

(** The record [new] exists and agrees with [old] (or with [r0] when
    there was no record) on every key but connection_status and
    last_check. *)
Definition keeps_other_keys (r0 : record) (old new : option record) : Prop :=
  ∃ r, new = Some r ∧
       ∀ key, "connection_status" ≠ key → "last_check" ≠ key →
              r !! key = default r0 old !! key.

Definition module_loop_frame (now : string) (info : entry)
    (old new : option record) : Prop :=
  if has_type "module" info
  then keeps_other_keys (module_record now) old new
  else new = old.

Definition probe_frame (info : entry) (old new : option record) : Prop :=
  keeps_other_keys ∅ old new.

(** Every descriptor of the state store is stored under its own name and
    has a type. *)
Definition named_children (s : GatewayState) : Prop :=
  ∀ name info, child_servers s !! name = Some info →
    info !! "name" = Some (JStr name) ∧ is_Some (info !! "type").

(** The descriptor [info], registered under [name], has its child
    attached to the gateway: a Proxy descriptor a proxy whose client is
    built from the descriptor's url, a Module descriptor a module. *)
Definition has_mount (mounts : list mount) (name : string) (info : entry)
    : Prop :=
  (has_type "proxy" info = true →
   ∃ url prefix, info !! "url" = Some url ∧
     MountProxy (ProxyClient_of_url url) (JStr name) prefix ∈ mounts) ∧
  (has_type "proxy" info = false → has_type "module" info = true →
   ∃ prefix, MountModule (JStr name) prefix ∈ mounts).

Definition descriptors_mounted (st : loader_state) : Prop :=
  ∀ name info, child_servers (gw st) !! name = Some info →
               has_mount (mounted st) name info.

(** The state in which an iteration of the loader loop ends. *)
Definition state_of (r : step_result) : loader_state :=
  match r with
  | Next st => st
  | Abort _ st => st
  end.

(** ** Requests served one after the other *)

(** One request as the middleware sees it: its scope, the clock reading
    when it arrives and the clock reading when its response starts. *)
Record http_request := {
  req_scope : scope;
  req_start : Z;
  req_response : Z
}.

(** [LoggingMiddleware.__call__] around a wrapped application that sends
    its response and leaves the active connections alone. *)
Definition handle_request (r : http_request) (s : GatewayState)
    : GatewayState :=
  track_response (req_response r) (req_scope r)
    (track_request (req_start r) (req_scope r) s).

Definition handle_all (reqs : list http_request) (s : GatewayState)
    : GatewayState :=
  foldl (λ s r, handle_request r s) s reqs.

(** The request is one the tracker counts: an HTTP [POST /mcp]. *)
Definition tracked (sc : scope) : bool :=
  String.eqb (scope_type sc) "http" &&
  (String.eqb (path sc) "/mcp" && String.eqb (method sc) "POST").

Definition tracked_from (addr : string) (reqs : list http_request) : Z :=
  Z.of_nat (length (List.filter
                      (λ r, tracked (req_scope r) &&
                            String.eqb (client_addr (req_scope r)) addr)
                      reqs)).

(** [state.active_connections.get(addr, {}).get("requests", 0)] *)
Definition requests_of (s : GatewayState) (addr : string) : Z :=
  match active_connections s !! addr with
  | Some c => requests c
  | None => 0
  end.



(** * Properties *)

Example update_metrics_once :
  let s := snd (update_metrics "ado" (5 # 2) "error" "t" (initial_state 0 0)) in
  requestCount s "ado" = 1 ∧ errorCount s "ado" = 1 ∧
  request_count s = 1 ∧ error_count s = 1.
Proof. vm_compute. done. Qed.

(** ** Reasoning about the recorder *)


Lemma only_record_changed_refl name s : only_record_changed name s s.
Proof. by repeat split. Qed.

Lemma only_record_changed_trans name s1 s2 s3 :
  only_record_changed name s1 s2 → only_record_changed name s2 s3 →
  only_record_changed name s1 s3.
Proof.
  intros (?&?&?&?&?&?&H12) (?&?&?&?&?&?&H23).
  repeat split; try congruence.
  intros other Hne. rewrite H23, H12; done.
Qed.

Lemma set_item_run name key v s r :
  metrics s !! name = Some r →
  ∃ s', set_item name key v s = (Val tt, s') ∧
        only_record_changed name s s' ∧
        metrics s' !! name = Some (<[key := v]> r).
Proof.
  intros Hr. unfold set_item. rewrite Hr. eexists; split; [done|].
  split.
  - repeat split; try done. intros other Hne. simpl.
    by rewrite lookup_insert_ne.
  - simpl. by rewrite lookup_insert_eq.
Qed.

Lemma iadd_item_run name key v s r old new :
  metrics s !! name = Some r → r !! key = Some old →
  py_add old v = Val new →
  ∃ s', iadd_item name key v s = (Val tt, s') ∧
        only_record_changed name s s' ∧
        metrics s' !! name = Some (<[key := new]> r).
Proof.
  intros Hr Hk Hadd. unfold iadd_item. rewrite Hr, Hk, Hadd.
  eexists; split; [done|]. split.
  - repeat split; try done. intros other Hne. simpl.
    by rewrite lookup_insert_ne.
  - simpl. by rewrite lookup_insert_eq.
Qed.

Lemma setdefault_record_run name r0 s :
  ∃ s', setdefault_record name r0 s = (Val tt, s') ∧
        only_record_changed name s s' ∧
        metrics s' !! name = Some (default r0 (metrics s !! name)).
Proof.
  unfold setdefault_record. destruct (metrics s !! name) as [r|] eqn:Hr.
  - exists s. split; [done|]. split; [apply only_record_changed_refl|done].
  - eexists; split; [done|]. split.
    + repeat split; try done. intros other Hne. simpl.
      by rewrite lookup_insert_ne.
    + simpl. by rewrite lookup_insert_eq.
Qed.

Lemma bind_run {A B} (c : M A) (k : A → M B) s a s' :
  c s = (Val a, s') → bind c k s = k a s'.
Proof. intros H. unfold bind. by rewrite H. Qed.

Lemma bind_assoc {A B C} (c : M A) (k1 : A → M B) (k2 : B → M C) s :
  bind (bind c k1) k2 s = bind c (λ a, bind (k1 a) k2) s.
Proof. unfold bind. destruct (c s) as [[a|e] s']; done. Qed.

Lemma zeroed_record_counted : counted zeroed_record 0 0.
Proof. repeat split. exists (PInt 0). done. Qed.

Ltac record_lookup :=
  rewrite ?Z.add_0_r;
  repeat (rewrite lookup_insert_ne by done);
  try rewrite lookup_insert_eq; done.

Lemma update_metrics_run name latency status now s r n e :
  default zeroed_record (metrics s !! name) = r → counted r n e →
  ∃ s' r',
    update_metrics name latency status now s = (Val tt, s') ∧
    child_servers s' = child_servers s ∧
    active_connections s' = active_connections s ∧
    request_count s' = request_count s + 1 ∧
    error_count s' = error_count s + error_incr status ∧
    (∀ other, other ≠ name → metrics s' !! other = metrics s !! other) ∧
    metrics s' !! name = Some r' ∧
    counted r' (n + 1) (e + error_incr status) ∧
    r' !! "status" = Some (PStr status) ∧
    r' !! "connection_status" = Some (PStr (connection_of status)) ∧
    r' !! "last_check" = Some (PStr now).
Proof.
  intros Hr (Hn & He & t & Ht & Hnum).
  unfold update_metrics.
  destruct (setdefault_record_run name zeroed_record s) as (s1 & E1 & F1 & R1).
  rewrite Hr in R1. rewrite (bind_run _ _ _ _ _ E1).
  destruct (iadd_item_run name "request_count" (PInt 1) s1 r _ _ R1 Hn eq_refl)
    as (s2 & E2 & F2 & R2).
  rewrite (bind_run _ _ _ _ _ E2).
  assert (∃ t', py_add t (PFloat latency) = Val t' ∧ is_num t') as (t' & Hadd & Hnum').
  { destruct t; try done; simpl; eauto. }
  assert (<["request_count":=PInt (n + 1)]> r !! "total_latency" = Some t) as Ht2
    by (by rewrite lookup_insert_ne).
  destruct (iadd_item_run name "total_latency" (PFloat latency) s2 _ _ _
              R2 Ht2 Hadd) as (s3 & E3 & F3 & R3).
  rewrite (bind_run _ _ _ _ _ E3).
  destruct (set_item_run name "last_check" (PStr now) s3 _ R3)
    as (s4 & E4 & F4 & R4).
  rewrite (bind_run _ _ _ _ _ E4).
  destruct (set_item_run name "status" (PStr status) s4 _ R4)
    as (s5 & E5 & F5 & R5).
  rewrite (bind_run _ _ _ _ _ E5).
  pose proof (only_record_changed_trans _ _ _ _ F1
               (only_record_changed_trans _ _ _ _ F2
                 (only_record_changed_trans _ _ _ _ F3
                   (only_record_changed_trans _ _ _ _ F4 F5)))) as F15.
  clear E1 E2 E3 E4 E5 F1 F2 F3 F4 F5 R1 R2 R3 R4.
  unfold connection_of, error_incr.
  destruct (String.eqb status "healthy") eqn:Hh;
    [|destruct (String.eqb status "error") eqn:Herr].
  - assert (String.eqb status "error" = false) as ->.
    { apply String.eqb_eq in Hh. by subst. }
    destruct (set_item_run name "connection_status" (PStr "connected") s5 _ R5)
      as (s6 & E6 & F6 & R6).
    rewrite (bind_run _ _ _ _ _ E6).
    destruct (only_record_changed_trans _ _ _ _ F15 F6)
      as (?&?&Hrc&Hec&?&?&Hother).
    eexists _, _. split; [reflexivity|]. simpl.
    repeat split; try done; try lia.
    all: try (eexists; split; [|exact Hnum']); record_lookup.
  - destruct (set_item_run name "connection_status" (PStr "failed") s5 _ R5)
      as (s6 & E6 & F6 & R6).
    rewrite !bind_assoc, (bind_run _ _ _ _ _ E6).
    eassert (_ !! "error_count" = Some (PInt e)) as He6.
    2: destruct (iadd_item_run name "error_count" (PInt 1) s6 _ _ _
                   R6 He6 eq_refl) as (s7 & E7 & F7 & R7).
    { by rewrite !lookup_insert_ne. }
    cbv beta. rewrite !bind_assoc, (bind_run _ _ _ _ _ E7).
    destruct (only_record_changed_trans _ _ _ _ F15
                (only_record_changed_trans _ _ _ _ F6 F7))
      as (?&?&Hrc&Hec&?&?&Hother).
    eexists _, _. split; [reflexivity|]. simpl.
    repeat split; try done; try lia.
    all: try (eexists; split; [|exact Hnum']); record_lookup.
  - destruct (set_item_run name "connection_status" (PStr "unhealthy") s5 _ R5)
      as (s6 & E6 & F6 & R6).
    rewrite (bind_run _ _ _ _ _ E6).
    destruct (only_record_changed_trans _ _ _ _ F15 F6)
      as (?&?&Hrc&Hec&?&?&Hother).
    eexists _, _. split; [reflexivity|]. simpl.
    repeat split; try done; try lia.
    all: try (eexists; split; [|exact Hnum']); record_lookup.
Qed.

Lemma initial_state_all_counted t0 t1 : all_counted (initial_state t0 t1).
Proof. intros name r. simpl. by rewrite lookup_empty. Qed.

Lemma counted_default s name :
  all_counted s →
  ∃ n e, counted (default zeroed_record (metrics s !! name)) n e ∧
         requestCount s name = n ∧ errorCount s name = e.
Proof.
  intros Hall. unfold requestCount, errorCount, counter.
  destruct (metrics s !! name) as [r|] eqn:Hr; simpl.
  - destruct (Hall _ _ Hr) as (n & e & Hc). exists n, e.
    destruct Hc as (Hn & He & Ht). rewrite Hn, He. by repeat split.
  - exists 0, 0. split; [apply zeroed_record_counted|done].
Qed.

Lemma record_observation_run o s :
  all_counted s →
  ∃ s', record_observation o s = (Val tt, s') ∧
        all_counted s' ∧
        request_count s' = request_count s + 1 ∧
        ∀ name,
          requestCount s' name =
            requestCount s name + (if names name o then 1 else 0) ∧
          errorCount s' name =
            errorCount s name + (if names name o && is_error o then 1 else 0).
Proof.
  intros Hall. unfold record_observation.
  destruct (counted_default s (obs_name o) Hall) as (n & e & Hc & Hn & He).
  destruct (update_metrics_run (obs_name o) (obs_latency o) (obs_status o)
              (obs_now o) s _ n e eq_refl Hc)
    as (s' & r' & Hrun & _ & _ & Hrc & _ & Hother & Hr' & Hc' & _).
  exists s'. split; [done|]. split; [|split; [done|]].
  - intros name r Hname. destruct (decide (name = obs_name o)) as [->|Hne].
    + rewrite Hr' in Hname. injection Hname as <-. eauto.
    + rewrite Hother in Hname by done. eauto.
  - intros name. unfold names, is_error.
    destruct (String.eqb_spec (obs_name o) name) as [<-|Hne].
    + unfold requestCount, errorCount, counter in *. rewrite Hr'.
      destruct Hc' as (-> & -> & _). unfold error_incr.
      rewrite Hn, He. simpl. by destruct (String.eqb (obs_status o) "error").
    + unfold requestCount, errorCount, counter.
      rewrite Hother by done. simpl. lia.
Qed.

Lemma record_all_run calls : ∀ s,
  all_counted s →
  ∃ s', record_all calls s = (Val tt, s') ∧
        all_counted s' ∧
        request_count s' = request_count s + Z.of_nat (length calls) ∧
        ∀ name,
          requestCount s' name = requestCount s name + calls_naming name calls ∧
          errorCount s' name = errorCount s name + errors_naming name calls.
Proof.
  induction calls as [|o rest IH]; intros s Hall.
  - exists s. split; [done|]. split; [done|]. split; [simpl; lia|].
    intros name. unfold calls_naming, errors_naming. simpl. lia.
  - destruct (record_observation_run o s Hall) as (s1 & E1 & Hall1 & Hrc1 & H1).
    destruct (IH s1 Hall1) as (s2 & E2 & Hall2 & Hrc2 & H2).
    exists s2. simpl record_all. rewrite (bind_run _ _ _ _ _ E1).
    split; [done|]. split; [done|]. split.
    + rewrite Hrc2, Hrc1. rewrite length_cons. lia.
    + intros name. destruct (H1 name) as [Hr1 He1].
      destruct (H2 name) as [Hr2 He2]. rewrite Hr2, He2, Hr1, He1.
      unfold calls_naming, errors_naming. simpl List.filter.
      destruct (names name o); simpl andb; [destruct (is_error o)|];
        rewrite ?length_cons; lia.
Qed.

Lemma errors_le_calls name calls :
  errors_naming name calls ≤ calls_naming name calls.
Proof.
  unfold errors_naming, calls_naming. apply inj_le.
  induction calls as [|o rest IH]; simpl; [done|].
  destruct (names name o); simpl; [destruct (is_error o)|]; simpl; lia.
Qed.

(** C1.  Starting from the initial gateway state, every finite sequence of
    [update_metrics] calls runs to completion without raising; afterwards,
    for every child name, the record's request count is the number of calls
    naming that child, its error count is the number of those calls whose
    status is "error" (hence at most the request count), and the global
    request counter is the total number of calls. *)
Theorem C1_counters_count_calls (t0 t1 : Z) (calls : list observation) :
  ∃ s', record_all calls (initial_state t0 t1) = (Val tt, s') ∧
        request_count s' = Z.of_nat (length calls) ∧
        ∀ name,
          requestCount s' name = calls_naming name calls ∧
          errorCount s' name = errors_naming name calls ∧
          errorCount s' name ≤ requestCount s' name.
Proof.
  destruct (record_all_run calls (initial_state t0 t1)
              (initial_state_all_counted t0 t1))
    as (s' & Hrun & _ & Hrc & Hnames).
  exists s'. split; [done|]. split; [by rewrite Hrc|].
  intros name. destruct (Hnames name) as [Hr He].
  assert (requestCount s' name = calls_naming name calls) as Hr'
    by (rewrite Hr; done).
  assert (errorCount s' name = errors_naming name calls) as He'
    by (rewrite He; done).
  split; [done|]. split; [done|].
  rewrite Hr', He'. apply errors_le_calls.
Qed.

(** ** The per-child health endpoint *)

(** C6.  A request to the per-child health endpoint with a name that is
    not a registered child is answered with a 404 response, returned as a
    value (nothing is raised), and the handler leaves the whole gateway
    state, metrics map and global counters included, as it was. *)
Theorem C6_unknown_child_not_found (net : network) (latency : Q)
    (now server_name : string) (s : GatewayState) :
  child_servers s !! server_name = None →
  server_health_check net latency now server_name s =
    (Val (JSONResponse 404
            [("error", PStr ("Server '" ++ server_name ++ "' not found"))]),
     s).
Proof.
  intros Hnone. unfold server_health_check, bind, get. by rewrite Hnone.
Qed.

Lemma C6_unknown_child_witness :
  child_servers one_proxy_state !! "docupedia" = None ∧
  server_health_check net_ok (5 # 2) "t" "docupedia" one_proxy_state =
    (Val (JSONResponse 404
            [("error", PStr "Server 'docupedia' not found")]),
     one_proxy_state).
Proof.
  split; [reflexivity|].
  apply (C6_unknown_child_not_found net_ok (5 # 2) "t" "docupedia").
  reflexivity.
Defined.

Lemma lift_run {A} (r : res A) s : lift r s = (r, s).
Proof. done. Qed.

Lemma type_is_proxy info :
  info !! "type" = Some (JStr "proxy") → type_is "proxy" info = Val true.
Proof. intros H. unfold type_is, getitem. by rewrite H. Qed.

(** C4, as the code has it.  For the per-child health endpoint invoked on
    a registered Proxy child whose metrics record, if there is one, carries
    the three counters: if the probe of its health endpoint returns HTTP
    200, the child's record afterwards has connection_status "connected"
    and status "healthy"; if the probe times out or fails in transport,
    the record afterwards has connection_status "failed" and status
    "error", and the response is a 503. *)
Theorem C4_health_check_proxy (net : network) (latency : Q)
    (now server_name url : string) (s : GatewayState) (info : entry)
    (r : record) (n e : Z) :
  child_servers s !! server_name = Some info →
  info !! "type" = Some (JStr "proxy") →
  health_url_of info = Val url →
  default zeroed_record (metrics s !! server_name) = r →
  counted r n e →
  (net url 5 = Response 200 →
   ∃ resp s',
     server_health_check net latency now server_name s = (Val resp, s') ∧
     status_code resp = 200 ∧
     metric_of s' server_name "connection_status" = Some (PStr "connected") ∧
     metric_of s' server_name "status" = Some (PStr "healthy")) ∧
  (net url 5 = Unreachable →
   ∃ resp s',
     server_health_check net latency now server_name s = (Val resp, s') ∧
     status_code resp = 503 ∧
     metric_of s' server_name "connection_status" = Some (PStr "failed") ∧
     metric_of s' server_name "status" = Some (PStr "error")).
Proof.
  intros Hinfo Htype Hurl Hr Hc.
  split; intros Hnet.
  - destruct (update_metrics_run server_name latency "healthy" now s r n e Hr Hc)
      as (s' & r' & Hrun & _ & _ & _ & _ & _ & Hr' & _ & Hst & Hcs & _).
    eexists _, s'. split; [|split; [|split]].
    + unfold server_health_check, bind at 1, get. rewrite Hinfo.
      unfold bind at 1. rewrite lift_run, (type_is_proxy _ Htype).
      unfold try_except, bind at 1. rewrite lift_run, Hurl.
      unfold bind at 1, client_get. rewrite lift_run, Hnet.
      simpl Z.eqb. cbv iota. unfold bind at 1. rewrite Hrun. reflexivity.
    + reflexivity.
    + unfold metric_of. by rewrite Hr'.
    + unfold metric_of. by rewrite Hr'.
  - destruct (update_metrics_run server_name latency "error" now s r n e Hr Hc)
      as (s' & r' & Hrun & _ & _ & _ & _ & _ & Hr' & _ & Hst & Hcs & _).
    eexists _, s'. split; [|split; [|split]].
    + unfold server_health_check, bind at 1, get. rewrite Hinfo.
      unfold bind at 1. rewrite lift_run, (type_is_proxy _ Htype).
      unfold try_except, bind at 1. rewrite lift_run, Hurl.
      unfold bind at 1, client_get. rewrite lift_run, Hnet.
      unfold bind at 1. rewrite Hrun. reflexivity.
    + reflexivity.
    + unfold metric_of. by rewrite Hr'.
    + unfold metric_of. by rewrite Hr'.
Qed.

Lemma C4_health_check_proxy_witness :
  (∃ resp s',
     server_health_check net_ok (5 # 2) "t" "ado" one_proxy_state
       = (Val resp, s') ∧
     status_code resp = 200 ∧
     metric_of s' "ado" "connection_status" = Some (PStr "connected") ∧
     metric_of s' "ado" "status" = Some (PStr "healthy")) ∧
  (∃ resp s',
     server_health_check net_down (5 # 2) "t" "ado" one_proxy_state
       = (Val resp, s') ∧
     status_code resp = 503 ∧
     metric_of s' "ado" "connection_status" = Some (PStr "failed") ∧
     metric_of s' "ado" "status" = Some (PStr "error")).
Proof.
  split.
  - refine (proj1 (C4_health_check_proxy net_ok (5 # 2) "t" "ado"
                     "http://localhost:8002/health" one_proxy_state
                     (proxy_entry "ado" "http://localhost:8002/mcp")
                     zeroed_record 0 0 _ _ _ _ _) _);
      try reflexivity.
    apply zeroed_record_counted.
  - refine (proj2 (C4_health_check_proxy net_down (5 # 2) "t" "ado"
                     "http://localhost:8002/health" one_proxy_state
                     (proxy_entry "ado" "http://localhost:8002/mcp")
                     zeroed_record 0 0 _ _ _ _ _) _);
      try reflexivity.
    apply zeroed_record_counted.
Defined.

(** The claim C4 as stated fails on its second half: after a health check
    of a registered Proxy child whose probe times out, the child's
    connection_status is "failed", not "disconnected". *)
Lemma C4_timeout_not_disconnected :
  net_down "http://localhost:8002/health" 5 = Unreachable ∧
  metric_of (server_health_check net_down (5 # 2) "t" "ado" one_proxy_state).2
    "ado" "connection_status" = Some (PStr "failed") ∧
  metric_of (server_health_check net_down (5 # 2) "t" "ado" one_proxy_state).2
    "ado" "connection_status" ≠ Some (PStr "disconnected").
Proof.
  split; [reflexivity|].
  assert (metric_of
            (server_health_check net_down (5 # 2) "t" "ado" one_proxy_state).2
            "ado" "connection_status" = Some (PStr "failed")) as H
    by (vm_compute; reflexivity).
  split; [exact H|]. rewrite H. discriminate.
Qed.

(** ** Records created by the prober *)

(** C10, at the input on which it fails.  [check_server_connections]
    probes the Proxy child "ado", which has no metrics record yet, and the
    probe answers 200.  The record it creates holds connection_status and
    last_check only: request_count, error_count and total_latency are
    missing.  On that state the handler of [GET /status], [update_metrics]
    and the per-child health check all raise [KeyError]. *)
Theorem C10_probe_record_lacks_counters :
  let s1 := (check_server_connections net_ok "t" one_proxy_state).2 in
  (check_server_connections net_ok "t" one_proxy_state).1 = Val tt ∧
  is_Some (metrics s1 !! "ado") ∧
  metric_of s1 "ado" "connection_status" = Some (PStr "connected") ∧
  metric_of s1 "ado" "request_count" = None ∧
  metric_of s1 "ado" "error_count" = None ∧
  metric_of s1 "ado" "total_latency" = None ∧
  (status s1).1 = Exc (KeyError "request_count") ∧
  (update_metrics "ado" (5 # 2) "healthy" "t" s1).1
    = Exc (KeyError "request_count") ∧
  (server_health_check net_ok (5 # 2) "t" "ado" s1).1
    = Exc (KeyError "request_count").
Proof.
  cbv zeta. split; [vm_compute; reflexivity|].
  split; [by eexists; vm_compute|].
  repeat split; vm_compute; reflexivity.
Qed.

(** The module branch of the prober, in contrast, creates a record with the
    three counters. *)
Lemma module_record_counted now : counted (module_record now) 0 0.
Proof. repeat split. exists (PInt 0). done. Qed.

(** ** Connection tracker *)

(** What a tracked request writes: the whole record is replaced, with both
    [connected_at] and [last_seen] set to the clock reading and only the
    request counter carried over. *)
Lemma track_request_writes now sc s :
  scope_type sc = "http" → path sc = "/mcp" → method sc = "POST" →
  active_connections (track_request now sc s) !! client_addr sc =
    Some {| connected_at := now; last_seen := now;
            requests :=
              match active_connections s !! client_addr sc with
              | Some c => requests c
              | None => 0
              end + 1 |}.
Proof.
  intros Ht Hp Hm. unfold track_request. rewrite Ht, Hp, Hm. simpl.
  by rewrite lookup_insert_eq.
Qed.

(** C8, at the input on which it fails.  Two requests to the primary
    ingress path come from the same address, at instants 1000 and 2000.
    The first creates the record with connected_at 1000.  The second does
    increment the request count and set last_seen, but it also overwrites
    connected_at with 2000. *)
Theorem C8_connected_at_overwritten :
  let addr := client_addr mcp_post in
  let s1 := track_request 1000 mcp_post (initial_state 0 0) in
  let s2 := track_request 2000 mcp_post s1 in
  active_connections s1 !! addr =
    Some {| connected_at := 1000; last_seen := 1000; requests := 1 |} ∧
  active_connections s2 !! addr =
    Some {| connected_at := 2000; last_seen := 2000; requests := 2 |} ∧
  connected_at <$> active_connections s2 !! addr
    ≠ connected_at <$> active_connections s1 !! addr.
Proof.
  cbv zeta.
  assert (active_connections (track_request 1000 mcp_post (initial_state 0 0))
            !! client_addr mcp_post =
          Some {| connected_at := 1000; last_seen := 1000; requests := 1 |})
    as H1 by (vm_compute; reflexivity).
  assert (active_connections
            (track_request 2000 mcp_post
               (track_request 1000 mcp_post (initial_state 0 0)))
            !! client_addr mcp_post =
          Some {| connected_at := 2000; last_seen := 2000; requests := 2 |})
    as H2 by (vm_compute; reflexivity).
  split; [exact H1|]. split; [exact H2|].
  rewrite H1, H2. simpl. discriminate.
Qed.

(** The response phase, in contrast, keeps [connected_at]. *)
Lemma track_response_keeps_connected_at now sc s c :
  active_connections s !! client_addr sc = Some c →
  connected_at <$> active_connections (track_response now sc s)
                     !! client_addr sc = Some (connected_at c).
Proof.
  intros Hc. unfold track_response.
  destruct (String.eqb (scope_type sc) "http"); [|by rewrite Hc].
  rewrite Hc. simpl. by rewrite lookup_insert_eq.
Qed.

(** ** Idle pruning *)

Lemma prune_step_lookup now k conns k' :
  prune_step now k conns !! k' =
    match conns !! k' with
    | Some c => if decide (k' = k) then
                  (if idle now c then None else Some c)
                else Some c
    | None => None
    end.
Proof.
  unfold prune_step, idle. destruct (decide (k' = k)) as [->|Hne].
  - destruct (conns !! k) as [c|] eqn:Hc; [|by rewrite Hc].
    destruct (idle_threshold_us <? now - last_seen c).
    + by rewrite lookup_delete_eq.
    + by rewrite Hc.
  - destruct (conns !! k) as [c|] eqn:Hc.
    + destruct (idle_threshold_us <? now - last_seen c).
      * rewrite lookup_delete_ne by done. by destruct (conns !! k').
      * by destruct (conns !! k').
    + by destruct (conns !! k').
Qed.

Lemma prune_loop_lookup now keys : ∀ conns k,
  prune_loop now keys conns !! k =
    match conns !! k with
    | Some c => if decide (k ∈ keys) then
                  (if idle now c then None else Some c)
                else Some c
    | None => None
    end.
Proof.
  induction keys as [|k' rest IH]; intros conns k; cbn [prune_loop].
  - destruct (conns !! k); [|done].
    destruct (decide (k ∈ [])) as [Hin|]; [|done].
    by apply not_elem_of_nil in Hin.
  - rewrite IH, prune_step_lookup.
    destruct (conns !! k) as [c|]; [|done].
    destruct (decide (k = k')) as [->|Hne].
    + rewrite (decide_True (P := k' ∈ k' :: rest)) by set_solver.
      destruct (idle now c) eqn:Hidle; [done|].
      rewrite Hidle. by destruct (decide (k' ∈ rest)).
    + destruct (decide (k ∈ rest)) as [Hin|Hnin],
        (decide (k ∈ k' :: rest)) as [Hin'|Hnin']; try done.
      * exfalso. apply Hnin'. by right.
      * exfalso. apply elem_of_cons in Hin' as [?|?]; done.
Qed.

(** The clean-up of the info panel drops exactly the connections whose
    last_seen lies more than 30 seconds back. *)
Lemma make_info_panel_prunes now s k :
  active_connections (make_info_panel now s).2 !! k =
    match active_connections s !! k with
    | Some c => if idle now c then None else Some c
    | None => None
    end.
Proof.
  unfold make_info_panel, prune_connections. simpl.
  rewrite prune_loop_lookup.
  destruct (active_connections s !! k) as [c|] eqn:Hc; [|done].
  rewrite decide_True; [done|].
  apply list_elem_of_fmap. exists (k, c). split; [done|].
  by apply elem_of_map_to_list.
Qed.

Lemma make_info_panel_clients now s k :
  k ∈ (make_info_panel now s).1 ↔
  ∃ c, active_connections s !! k = Some c ∧ idle now c = false.
Proof.
  pose proof (make_info_panel_prunes now s k) as H.
  unfold make_info_panel in *. simpl in *.
  rewrite list_elem_of_fmap. split.
  - intros ([k' c] & -> & Hin). apply elem_of_map_to_list in Hin.
    simpl in *. rewrite Hin in H.
    destruct (active_connections s !! k') as [c'|]; [|done].
    exists c'. split; [done|]. by destruct (idle now c').
  - intros (c & Hc & Hidle). rewrite Hc, Hidle in H.
    exists (k, c). split; [done|]. by apply elem_of_map_to_list.
Qed.

(** C7, at the input on which it fails.  The only connection was last
    seen at instant 0 and the dashboard is refreshed 31 seconds later.
    The header, drawn first, counts the clients without pruning and shows
    one client; the info panel of the same refresh prunes and enumerates
    none.  A connection seen 10 seconds ago is kept by both. *)
Theorem C7_header_counts_idle_connection :
  let stale := {| connected_at := 0; last_seen := 0; requests := 1 |} in
  let s := set_active_connections {[ "10.0.0.1:5000" := stale ]}
             (initial_state 0 0) in
  let now := 31 * 1000000 in
  idle now stale = true ∧
  make_header s = 1%nat ∧
  (make_info_panel now s).1 = [] ∧
  update_display now s = (1%nat, [], initial_state 0 0) ∧
  idle (10 * 1000000) stale = false ∧
  (make_info_panel (10 * 1000000) s).1 = ["10.0.0.1:5000"].
Proof. cbv zeta. repeat split; vm_compute; reflexivity. Qed.

(** ** Registry / mounter *)

Lemma store_descriptor_mounted name c st st' :
  store_descriptor name c st = Next st' → mounted st' = mounted st.
Proof. destruct name; simpl; [|done]. by intros [= <-]. Qed.

(** C2, as the code has it.  A configured child entry whose mount attempt
    fails (the proxy client cannot be built or mounted, or the module
    path, import or initializer fails) is skipped: the iteration ends at a
    [continue] before the descriptor is stored, so the gateway state and
    the attached children are left as they were, and the loop goes on with
    the remaining entries. *)
Theorem C2_failed_mount_skipped (w : world) (server_config : entry)
    (st : loader_state) (rest : list entry) :
  mount_fails w (environ st) server_config →
  ∃ st', load_entry w server_config st = Next st' ∧
         gw st' = gw st ∧
         mounted st' = mounted st ∧
         load_entries w (server_config :: rest) st = load_entries w rest st'.
Proof.
  intros [Hp|Hm].
  - destruct Hp as (name & ty & url & headers & Hn & Ht & Hty & Hu & Hh & Hf).
    eexists. split; [|split; [|split]].
    + unfold load_entry. rewrite Hn, Ht, Hty, Hu. simpl environ.
      rewrite Hh, Hf. reflexivity.
    + done.
    + done.
    + simpl. unfold load_entry. rewrite Hn, Ht, Hty, Hu. simpl environ.
      by rewrite Hh, Hf.
  - destruct Hm as (name & ty & Hn & Ht & Hnp & Hty & Hout).
    assert (∃ st', load_entry w server_config st = Next st' ∧
                   gw st' = gw st ∧ mounted st' = mounted st)
      as (st' & Hrun & Hgw & Hmo).
    { unfold load_entry. rewrite Hn, Ht, Hnp, Hty.
      destruct (default (JObj ∅) (server_config !! "module_envvars"))
        as [x|vars]; [by eexists|].
      simpl environ.
      destruct (module_mounts w (inject_envvars vars (environ st))
                  server_config); try done; by eexists. }
    exists st'. repeat split; try done. simpl. by rewrite Hrun.
Qed.

Lemma C2_failed_mount_skipped_witness :
  mount_fails world_failing (environ (loader_start ∅)) ado_entry ∧
  ∃ st', load_entry world_failing ado_entry (loader_start ∅) = Next st' ∧
         gw st' = gw (loader_start ∅) ∧
         mounted st' = mounted (loader_start ∅) ∧
         load_entries world_failing
           [ado_entry; module_entry "docs" "mcp_server"] (loader_start ∅)
         = load_entries world_failing
             [module_entry "docs" "mcp_server"] st'.
Proof.
  assert (mount_fails world_failing (environ (loader_start ∅)) ado_entry)
    as Hfails.
  { left. exists (JStr "ado"), (JStr "proxy"),
      (JStr "http://localhost:8002/mcp"), ∅.
    repeat split; reflexivity. }
  split; [exact Hfails|].
  exact (C2_failed_mount_skipped world_failing ado_entry (loader_start ∅)
           [module_entry "docs" "mcp_server"] Hfails).
Defined.

(** The claim C2 as stated fails: the Proxy entry "ado" is configured, its
    mount attempt fails, and after loading the child-server map holds no
    descriptor for it. *)
Lemma C2_failed_mount_not_recorded :
  mount_fails world_failing ∅ ado_entry ∧
  child_servers
    (gw (load_child_servers world_failing (Some [ado_entry]) (loader_start ∅)))
    !! "ado" = None.
Proof.
  split.
  - left. exists (JStr "ado"), (JStr "proxy"),
      (JStr "http://localhost:8002/mcp"), ∅.
    repeat split; reflexivity.
  - vm_compute. reflexivity.
Qed.

(** An entry without [name] raises out of the loop: the handler that
    encloses the loop logs it, and the entries after it are not visited. *)
Lemma load_entries_missing_name w server_config rest st :
  server_config !! "name" = None →
  load_entries w (server_config :: rest) st =
    add_log (LogConfigFailed (KeyError "name")) st.
Proof. intros H. simpl. unfold load_entry. by rewrite H. Qed.

(** C3, at the input on which it fails.  Every mount succeeds.  With the
    valid Proxy entry first and the entry without [name] second, one
    descriptor is recorded.  With the entry without [name] first, the
    [KeyError] ends the loop, the valid entry after it is never visited,
    and no descriptor is recorded. *)
Theorem C3_missing_name_aborts_loading :
  nameless_entry !! "name" = None ∧
  dom (child_servers
         (gw (load_child_servers world_mounting
                (Some [ado_entry; nameless_entry]) (loader_start ∅))))
    = {[ "ado" ]} ∧
  child_servers
    (gw (load_child_servers world_mounting
           (Some [nameless_entry; ado_entry]) (loader_start ∅))) = ∅ ∧
  log (load_child_servers world_mounting
         (Some [nameless_entry; ado_entry]) (loader_start ∅))
    = [LogConfigFailed (KeyError "name")].
Proof. repeat split; vm_compute; reflexivity. Qed.

(** No branch of the loader passes [headers] on: every proxy client it
    attaches is built from the URL alone. *)
Lemma load_entry_clients_without_headers w server_config st st' :
  load_entry w server_config st = Next st' →
  Forall (λ client, pc_headers client = ∅) (proxy_clients st) →
  Forall (λ client, pc_headers client = ∅) (proxy_clients st').
Proof.
  unfold load_entry, proxy_clients.
  destruct (server_config !! "name") as [name|]; [|done].
  destruct (server_config !! "type") as [ty|]; [|done].
  destruct (j_is "proxy" ty).
  - destruct (server_config !! "url") as [url|]; [|done].
    destruct (bearer_headers _ _) as [headers|]; [|done].
    destruct (proxy_mounts w url name _).
    + intros Hs Hall. apply store_descriptor_mounted in Hs. rewrite Hs.
      simpl. rewrite omap_app. apply Forall_app. split; [done|].
      simpl. by constructor.
    + by intros [= <-].
  - destruct (j_is "module" ty).
    + destruct (default _ _) as [x|vars]; [by intros [= <-]|].
      destruct (module_mounts _ _ _); try (by intros [= <-]).
      intros Hs Hall. apply store_descriptor_mounted in Hs. rewrite Hs.
      simpl. rewrite omap_app. apply Forall_app. split; [done|].
      simpl. constructor.
    + intros Hs Hall. apply store_descriptor_mounted in Hs. by rewrite Hs.
Qed.

(** C9, at the input on which it fails.  The Proxy entry "ado" is
    configured with bearer authentication and the token ADO_TOKEN, which
    the environment resolves to "s3cret".  The loader does compute the
    header [Authorization: Bearer s3cret], but the client it builds and
    mounts is built from the URL alone and carries no Authorization
    header. *)
Theorem C9_bearer_header_not_attached :
  let st := load_child_servers world_mounting (Some [bearer_entry])
              (loader_start bearer_environ) in
  bearer_headers bearer_environ bearer_entry
    = Val {[ "Authorization" := "Bearer s3cret" ]} ∧
  dom (child_servers (gw st)) = {[ "ado" ]} ∧
  proxy_clients st
    = [ {| pc_url := JStr "http://localhost:8002/mcp"; pc_headers := ∅ |} ] ∧
  Forall (λ client, pc_headers client !! "Authorization" = None)
    (proxy_clients st).
Proof.
  cbv zeta.
  assert (proxy_clients
            (load_child_servers world_mounting (Some [bearer_entry])
               (loader_start bearer_environ))
          = [ {| pc_url := JStr "http://localhost:8002/mcp";
                 pc_headers := ∅ |} ]) as Hc
    by (vm_compute; reflexivity).
  split; [vm_compute; reflexivity|].
  split; [vm_compute; reflexivity|].
  split; [exact Hc|].
  rewrite Hc. constructor; [reflexivity|constructor].
Qed.

(** ** Health prober *)

Lemma only_record_changed_metrics name s s' :
  only_record_changed name s s' → only_metrics_changed s s'.
Proof. intros (?&?&?&?&?&?&_). by repeat split. Qed.

Lemma only_metrics_changed_trans s1 s2 s3 :
  only_metrics_changed s1 s2 → only_metrics_changed s2 s3 →
  only_metrics_changed s1 s3.
Proof.
  intros (?&?&?&?&?&?) (?&?&?&?&?&?). repeat split; congruence.
Qed.

(** A loop over descriptors whose body never raises and touches the record
    of its own child only: it runs to the end, and every child of the list
    has had the effect of its own iteration. *)
Lemma for_each_records (body : string * entry → M unit)
    (effect : entry → option record → option record → Prop)
    (items : list (string * entry)) :
  NoDup items.*1 →
  (∀ name info s, (name, info) ∈ items →
     ∃ s', body (name, info) s = (Val tt, s') ∧
           only_record_changed name s s' ∧
           effect info (metrics s !! name) (metrics s' !! name)) →
  ∀ s, ∃ s',
    for_each items body s = (Val tt, s') ∧
    only_metrics_changed s s' ∧
    (∀ name, name ∉ items.*1 → metrics s' !! name = metrics s !! name) ∧
    (∀ name info, (name, info) ∈ items →
       effect info (metrics s !! name) (metrics s' !! name)).
Proof.
  induction items as [|[n i] rest IH]; intros Hdup Hbody s.
  - exists s. split; [done|]. split; [by repeat split|]. split; [done|].
    intros name info Hin. by apply not_elem_of_nil in Hin.
  - rewrite fmap_cons in Hdup. apply NoDup_cons in Hdup as [Hn Hdup].
    destruct (Hbody n i s) as (s1 & E1 & F1 & Q1); [by left|].
    destruct (IH Hdup) with (s := s1) as (s2 & E2 & F2 & Hout & Q2).
    { intros name info s0 Hin. apply Hbody. by right. }
    exists s2. split; [|split; [|split]].
    + simpl. by rewrite (bind_run _ _ _ _ _ E1).
    + eapply only_metrics_changed_trans; [|exact F2].
      by eapply only_record_changed_metrics.
    + intros name Hname. rewrite fmap_cons in Hname.
      apply not_elem_of_cons in Hname as [Hne Hname].
      rewrite Hout by done. destruct F1 as (_&_&_&_&_&_&F1). by apply F1.
    + intros name info Hin. apply elem_of_cons in Hin as [[= -> ->]|Hin].
      * rewrite Hout by done. exact Q1.
      * assert (name ∈ rest.*1) as Hname.
        { apply list_elem_of_fmap. by exists (name, info). }
        assert (name ≠ n) as Hne by (intros ->; done).
        destruct F1 as (_&_&_&_&_&_&F1).
        rewrite <- (F1 name Hne). by apply Q2.
Qed.

Lemma type_is_has_type lit info :
  is_Some (info !! "type") → type_is lit info = Val (has_type lit info).
Proof. intros [t Ht]. unfold type_is, has_type, getitem. by rewrite Ht. Qed.

Lemma check_module_run now name info s :
  is_Some (info !! "type") →
  ∃ s', check_module now (name, info) s = (Val tt, s') ∧
        only_record_changed name s s' ∧
        module_loop_effect info (metrics s !! name) (metrics s' !! name).
Proof.
  intros Ht. unfold check_module, module_loop_effect.
  unfold bind at 1. rewrite lift_run, (type_is_has_type _ _ Ht).
  destruct (has_type "module" info).
  - destruct (setdefault_record_run name (module_record now) s)
      as (s1 & E1 & F1 & R1).
    destruct (set_item_run name "connection_status" (PStr "connected") s1 _ R1)
      as (s2 & E2 & F2 & R2).
    exists s2. split; [|split].
    + by rewrite (bind_run _ _ _ _ _ E1).
    + by eapply only_record_changed_trans.
    + eexists. split; [exact R2|]. by rewrite lookup_insert_eq.
  - exists s. split; [done|]. split; [apply only_record_changed_refl|done].
Qed.

(** The three ways a probe task ends all write the connection status into
    the record of the child, creating an empty record first when there is
    none. *)
Lemma mark_connection_run name status s :
  ∃ s', (setdefault_record name ∅ ;;;
         set_item name "connection_status" (PStr status)) s = (Val tt, s') ∧
        only_record_changed name s s' ∧
        ∃ r, metrics s' !! name = Some r ∧
             r !! "connection_status" = Some (PStr status).
Proof.
  destruct (setdefault_record_run name ∅ s) as (s1 & E1 & F1 & R1).
  destruct (set_item_run name "connection_status" (PStr status) s1 _ R1)
    as (s2 & E2 & F2 & R2).
  exists s2. split; [|split].
  - by rewrite (bind_run _ _ _ _ _ E1).
  - by eapply only_record_changed_trans.
  - eexists. split; [exact R2|]. by rewrite lookup_insert_eq.
Qed.

Lemma check_proxy_run net now name info s :
  has_type "proxy" info = true →
  ∃ s', check_proxy net now (name, info) s = (Val tt, s') ∧
        only_record_changed name s s' ∧
        probe_effect net info (metrics s !! name) (metrics s' !! name).
Proof.
  intros Hp.
  assert (type_is "proxy" info = Val true) as Hty.
  { unfold has_type in Hp. unfold type_is, getitem.
    destruct (info !! "type"); [by rewrite Hp|done]. }
  unfold check_proxy, probe_effect, probe_status.
  unfold bind at 1. rewrite lift_run, Hty. cbn [negb].
  unfold try_except, bind at 1. rewrite lift_run.
  destruct (check_url_of info) as [url|e].
  - unfold bind at 1, client_get. rewrite lift_run.
    destruct (net url 2) as [code|].
    + destruct (code =? 200).
      * destruct (setdefault_record_run name ∅ s) as (s1 & E1 & F1 & R1).
        destruct (set_item_run name "connection_status" (PStr "connected")
                    s1 _ R1) as (s2 & E2 & F2 & R2).
        destruct (set_item_run name "last_check" (PStr now) s2 _ R2)
          as (s3 & E3 & F3 & R3).
        exists s3. split; [|split].
        -- rewrite (bind_run _ _ _ _ _ E1), (bind_run _ _ _ _ _ E2), E3.
           reflexivity.
        -- eapply only_record_changed_trans; [exact F1|].
           by eapply only_record_changed_trans.
        -- eexists. split; [exact R3|].
           by rewrite lookup_insert_ne, lookup_insert_eq.
      * destruct (mark_connection_run name "unhealthy" s)
          as (s' & E & F & R).
        exists s'. by rewrite E.
    + apply mark_connection_run.
  - apply mark_connection_run.
Qed.

Lemma proxy_items_run items :
  Forall (λ item : string * entry, is_Some (item.2 !! "type")) items →
  ∃ tasks, proxy_items items = Val tasks ∧
           tasks `sublist_of` items ∧
           ∀ name info, (name, info) ∈ tasks ↔
                        (name, info) ∈ items ∧ has_type "proxy" info = true.
Proof.
  induction 1 as [|[n i] rest Ht _ IH].
  - exists []. split; [done|]. split; [done|].
    intros name info. split; [intros Hnil|intros [Hnil _]];
      by apply not_elem_of_nil in Hnil.
  - destruct IH as (tasks & Hrun & Hsub & Hin). simpl in Ht.
    simpl. rewrite (type_is_has_type _ _ Ht), Hrun. simpl.
    destruct (has_type "proxy" i) eqn:Hp.
    + eexists. split; [done|]. split; [by constructor|].
      intros name info. rewrite !elem_of_cons, Hin. split.
      * intros [[= -> ->]|[? ?]]; [by split; [left|]|by split; [right|]].
      * intros [[[= -> ->]|?] ?]; [by left|by right].
    + eexists. split; [done|]. split; [by constructor|].
      intros name info. rewrite elem_of_cons, Hin. split.
      * intros [? ?]. by split; [right|].
      * intros [[[= -> ->]|?] ?]; [congruence|done].
Qed.

Lemma check_server_connections_run net now s :
  typed_children s →
  ∃ s', check_server_connections net now s = (Val tt, s') ∧
        only_metrics_changed s s' ∧
        ∀ name info, child_servers s !! name = Some info →
          (has_type "module" info = true →
           metric_of s' name "connection_status" = Some (PStr "connected")) ∧
          (has_type "proxy" info = true →
           metric_of s' name "connection_status"
             = Some (PStr (probe_status net info))).
Proof.
  intros Htyped. unfold check_server_connections, bind at 1, get.
  set (items := map_to_list (child_servers s)).
  assert (NoDup items.*1) as Hdup by apply NoDup_fst_map_to_list.
  assert (∀ name info, (name, info) ∈ items ↔
                       child_servers s !! name = Some info) as Hitems
    by (intros; apply elem_of_map_to_list).
  destruct (for_each_records (check_module now) module_loop_effect items Hdup)
    with (s := s) as (s1 & E1 & F1 & _ & Q1).
  { intros name info s0 Hin. apply check_module_run.
    apply (Htyped name). by apply Hitems. }
  rewrite (bind_run _ _ _ _ _ E1).
  destruct (proxy_items_run items) as (tasks & Htasks & Hsub & Hin).
  { apply Forall_forall. intros [name info] Hitem. simpl.
    apply (Htyped name). by apply Hitems. }
  unfold bind at 1. rewrite lift_run, Htasks.
  assert (NoDup tasks.*1) as Hdup'.
  { eapply sublist_NoDup; [exact Hdup|]. by apply fmap_sublist. }
  destruct (for_each_records (check_proxy net now) (probe_effect net) tasks Hdup')
    with (s := s1) as (s2 & E2 & F2 & Hout & Q2).
  { intros name info s0 Htask. apply check_proxy_run.
    by apply (Hin name info). }
  exists s2. split; [exact E2|].
  split; [by eapply only_metrics_changed_trans|].
  intros name info Hinfo. apply Hitems in Hinfo as Hitem. split; intros Hty.
  - pose proof (Q1 name info Hitem) as Hm. unfold module_loop_effect in Hm.
    rewrite Hty in Hm. destruct Hm as (r & Hr & Hcs).
    unfold metric_of. rewrite Hout, Hr; [done|].
    intros Hname. apply list_elem_of_fmap in Hname as ([n' info'] & -> & Htask).
    simpl in *. apply Hin in Htask as [Hitem' Hp].
    apply Hitems in Hitem'. rewrite Hinfo in Hitem'. injection Hitem' as <-.
    unfold has_type in Hty, Hp. destruct (info !! "type") as [[t|o]|]; try done.
    simpl in *. apply String.eqb_eq in Hty, Hp. congruence.
  - destruct (Q2 name info) as (r & Hr & Hcs); [by apply Hin|].
    unfold metric_of. by rewrite Hr.
Qed.

(** C5.  On a state store whose descriptors all have a type (as the
    loader leaves it), [check_server_connections] runs to the end without
    raising, whatever the probes do.  Afterwards every Module child has
    connection_status "connected", and every Proxy child has the
    connection_status its own probe is classified as: "connected" on HTTP
    200, "unhealthy" on any other status code, and "disconnected" when the
    request times out or fails in transport, or when the health URL cannot
    be built. *)
Theorem C5_check_all_classifies (net : network) (now : string)
    (s : GatewayState) :
  typed_children s →
  ∃ s', check_server_connections net now s = (Val tt, s') ∧
    ∀ name info, child_servers s !! name = Some info →
      (info !! "type" = Some (JStr "module") →
       metric_of s' name "connection_status" = Some (PStr "connected")) ∧
      (info !! "type" = Some (JStr "proxy") →
       (∀ url, check_url_of info = Val url →
          (net url 2 = Response 200 →
           metric_of s' name "connection_status"
             = Some (PStr "connected")) ∧
          (∀ code, net url 2 = Response code → code ≠ 200 →
           metric_of s' name "connection_status"
             = Some (PStr "unhealthy")) ∧
          (net url 2 = Unreachable →
           metric_of s' name "connection_status"
             = Some (PStr "disconnected"))) ∧
       (∀ e, check_url_of info = Exc e →
          metric_of s' name "connection_status"
            = Some (PStr "disconnected"))).
Proof.
  intros Htyped.
  destruct (check_server_connections_run net now s Htyped)
    as (s' & Hrun & _ & Hall).
  exists s'. split; [exact Hrun|].
  intros name info Hinfo. destruct (Hall name info Hinfo) as [Hmod Hproxy].
  split.
  - intros Hty. apply Hmod. unfold has_type. by rewrite Hty.
  - intros Hty.
    assert (metric_of s' name "connection_status"
              = Some (PStr (probe_status net info))) as ->.
    { apply Hproxy. unfold has_type. by rewrite Hty. }
    unfold probe_status. split.
    + intros url ->. repeat split.
      * by intros ->.
      * intros code -> Hcode. by apply Z.eqb_neq in Hcode as ->.
      * by intros ->.
    + by intros e ->.
Qed.

Lemma two_children_state_typed : typed_children two_children_state.
Proof.
  intros name info H. unfold two_children_state in H. simpl in H.
  apply lookup_insert_Some in H as [[<- <-]|[_ H]]; [by eexists|].
  apply lookup_singleton_Some in H as [<- <-]. by eexists.
Defined.

Lemma C5_check_all_classifies_witness :
  typed_children two_children_state ∧
  ∃ s', check_server_connections net_down "t" two_children_state
          = (Val tt, s') ∧
    ∀ name info, child_servers two_children_state !! name = Some info →
      (info !! "type" = Some (JStr "module") →
       metric_of s' name "connection_status" = Some (PStr "connected")) ∧
      (info !! "type" = Some (JStr "proxy") →
       (∀ url, check_url_of info = Val url →
          (net_down url 2 = Response 200 →
           metric_of s' name "connection_status"
             = Some (PStr "connected")) ∧
          (∀ code, net_down url 2 = Response code → code ≠ 200 →
           metric_of s' name "connection_status"
             = Some (PStr "unhealthy")) ∧
          (net_down url 2 = Unreachable →
           metric_of s' name "connection_status"
             = Some (PStr "disconnected"))) ∧
       (∀ e, check_url_of info = Exc e →
          metric_of s' name "connection_status"
            = Some (PStr "disconnected"))).
Proof.
  split; [exact two_children_state_typed|].
  exact (C5_check_all_classifies net_down "t" two_children_state
           two_children_state_typed).
Defined.

Example check_all_two_children :
  let s' := (check_server_connections net_down "t" two_children_state).2 in
  metric_of s' "docs" "connection_status" = Some (PStr "connected") ∧
  metric_of s' "ado" "connection_status" = Some (PStr "disconnected").
Proof. split; vm_compute; reflexivity. Qed.

(** The loader stores a descriptor only after reading its ["type"], so
    every state it produces has typed descriptors. *)
Lemma store_descriptor_typed name server_config st :
  is_Some (server_config !! "type") → typed_children (gw st) →
  match store_descriptor name server_config st with
  | Next st' | Abort _ st' => typed_children (gw st')
  end.
Proof.
  intros Ht Hst. destruct name as [n|o]; simpl; [|done].
  intros name info H. simpl in H.
  apply lookup_insert_Some in H as [[_ <-]|[_ H]];
    [done|by eapply Hst].
Qed.

Lemma load_entry_typed w server_config st :
  typed_children (gw st) →
  match load_entry w server_config st with
  | Next st' | Abort _ st' => typed_children (gw st')
  end.
Proof.
  intros Hst. unfold load_entry.
  destruct (server_config !! "name") as [name|]; [|done].
  destruct (server_config !! "type") as [ty|] eqn:Hty; [|done].
  assert (is_Some (server_config !! "type")) as Hsome by (by rewrite Hty).
  destruct (j_is "proxy" ty).
  - destruct (server_config !! "url") as [url|]; [|done].
    destruct (bearer_headers _ _) as [headers|]; [|done].
    destruct (proxy_mounts w url name _); [|done].
    by apply store_descriptor_typed.
  - destruct (j_is "module" ty).
    + destruct (default _ _) as [x|vars]; [done|].
      destruct (module_mounts _ _ _); try done.
      by apply store_descriptor_typed.
    + by apply store_descriptor_typed.
Qed.

Lemma load_child_servers_typed w config st :
  typed_children (gw st) →
  typed_children (gw (load_child_servers w config st)).
Proof.
  destruct config as [entries|]; [|done]. simpl.
  revert st. induction entries as [|c rest IH]; intros st Hst; [done|].
  simpl. pose proof (load_entry_typed w c st Hst) as Hstep.
  destruct (load_entry w c st) as [st'|e st']; [by apply IH|done].
Qed.

(** * Further properties of the gateway *)

(** ** Metrics recorder *)

(** One call of the recorder on a record with the three counters, with
    everything it writes. *)
Lemma update_metrics_full name latency status now s r n e t t' :
  default zeroed_record (metrics s !! name) = r →
  r !! "request_count" = Some (PInt n) →
  r !! "error_count" = Some (PInt e) →
  r !! "total_latency" = Some t →
  py_add t (PFloat latency) = Val t' →
  ∃ s' r',
    update_metrics name latency status now s = (Val tt, s') ∧
    only_metrics_changed s
      (set_error_count (error_count s)
         (set_request_count (request_count s) s')) ∧
    request_count s' = request_count s + 1 ∧
    error_count s' = error_count s + error_incr status ∧
    (∀ other, other ≠ name → metrics s' !! other = metrics s !! other) ∧
    metrics s' !! name = Some r' ∧
    r' !! "request_count" = Some (PInt (n + 1)) ∧
    r' !! "error_count" = Some (PInt (e + error_incr status)) ∧
    r' !! "total_latency" = Some t' ∧
    r' !! "status" = Some (PStr status) ∧
    r' !! "connection_status" = Some (PStr (connection_of status)) ∧
    r' !! "last_check" = Some (PStr now) ∧
    (∀ key, "request_count" ≠ key → "error_count" ≠ key →
            "total_latency" ≠ key → "status" ≠ key →
            "connection_status" ≠ key → "last_check" ≠ key →
            r' !! key = r !! key).
Proof.
  intros Hr Hn He Ht Hadd.
  unfold update_metrics.
  destruct (setdefault_record_run name zeroed_record s) as (s1 & E1 & F1 & R1).
  rewrite Hr in R1. rewrite (bind_run _ _ _ _ _ E1).
  destruct (iadd_item_run name "request_count" (PInt 1) s1 r _ _ R1 Hn eq_refl)
    as (s2 & E2 & F2 & R2).
  rewrite (bind_run _ _ _ _ _ E2).
  assert (<["request_count":=PInt (n + 1)]> r !! "total_latency" = Some t) as Ht2
    by (by rewrite lookup_insert_ne).
  destruct (iadd_item_run name "total_latency" (PFloat latency) s2 _ _ _
              R2 Ht2 Hadd) as (s3 & E3 & F3 & R3).
  rewrite (bind_run _ _ _ _ _ E3).
  destruct (set_item_run name "last_check" (PStr now) s3 _ R3)
    as (s4 & E4 & F4 & R4).
  rewrite (bind_run _ _ _ _ _ E4).
  destruct (set_item_run name "status" (PStr status) s4 _ R4)
    as (s5 & E5 & F5 & R5).
  rewrite (bind_run _ _ _ _ _ E5).
  pose proof (only_record_changed_trans _ _ _ _ F1
               (only_record_changed_trans _ _ _ _ F2
                 (only_record_changed_trans _ _ _ _ F3
                   (only_record_changed_trans _ _ _ _ F4 F5)))) as F15.
  clear E1 E2 E3 E4 E5 F1 F2 F3 F4 F5 R1 R2 R3 R4.
  unfold connection_of, error_incr.
  destruct (String.eqb status "healthy") eqn:Hh;
    [|destruct (String.eqb status "error") eqn:Herr].
  - assert (String.eqb status "error" = false) as ->.
    { apply String.eqb_eq in Hh. by subst. }
    destruct (set_item_run name "connection_status" (PStr "connected") s5 _ R5)
      as (s6 & E6 & F6 & R6).
    rewrite (bind_run _ _ _ _ _ E6).
    destruct (only_record_changed_trans _ _ _ _ F15 F6)
      as (?&?&Hrc&Hec&?&?&Hother).
    eexists _, _. split; [reflexivity|]. simpl.
    split_and!; try exact R6; try done; try lia.
    all: try (intros key; intros); record_lookup.
  - destruct (set_item_run name "connection_status" (PStr "failed") s5 _ R5)
      as (s6 & E6 & F6 & R6).
    rewrite !bind_assoc, (bind_run _ _ _ _ _ E6).
    eassert (_ !! "error_count" = Some (PInt e)) as He6.
    2: destruct (iadd_item_run name "error_count" (PInt 1) s6 _ _ _
                   R6 He6 eq_refl) as (s7 & E7 & F7 & R7).
    { by rewrite !lookup_insert_ne. }
    cbv beta. rewrite !bind_assoc, (bind_run _ _ _ _ _ E7).
    destruct (only_record_changed_trans _ _ _ _ F15
                (only_record_changed_trans _ _ _ _ F6 F7))
      as (?&?&Hrc&Hec&?&?&Hother).
    eexists _, _. split; [reflexivity|]. simpl.
    split_and!; try exact R7; try done; try lia.
    all: try (intros key; intros); record_lookup.
  - destruct (set_item_run name "connection_status" (PStr "unhealthy") s5 _ R5)
      as (s6 & E6 & F6 & R6).
    rewrite (bind_run _ _ _ _ _ E6).
    destruct (only_record_changed_trans _ _ _ _ F15 F6)
      as (?&?&Hrc&Hec&?&?&Hother).
    eexists _, _. split; [reflexivity|]. simpl.
    split_and!; try exact R6; try done; try lia.
    all: try (intros key; intros); record_lookup.
Qed.

Lemma record_observation_full o s :
  all_counted s →
  ∃ s', record_observation o s = (Val tt, s') ∧
        all_counted s' ∧
        request_count s' = request_count s + 1 ∧
        error_count s' = error_count s + (if is_error o then 1 else 0) ∧
        (∀ other, other ≠ obs_name o →
                  metrics s' !! other = metrics s !! other) ∧
        metric_of s' (obs_name o) "status" = Some (PStr (obs_status o)) ∧
        metric_of s' (obs_name o) "connection_status"
          = Some (PStr (connection_of (obs_status o))) ∧
        metric_of s' (obs_name o) "last_check" = Some (PStr (obs_now o)) ∧
        total_latency_of s' (obs_name o)
          = Qplus (total_latency_of s (obs_name o)) (obs_latency o).
Proof.
  intros Hall. unfold record_observation.
  set (name := obs_name o).
  assert (∃ n e t, let r := default zeroed_record (metrics s !! name) in
            r !! "request_count" = Some (PInt n) ∧
            r !! "error_count" = Some (PInt e) ∧
            r !! "total_latency" = Some t ∧ is_num t ∧
            total_latency_of s name
              = match t with PInt m => inject_Z m | PFloat x => x
                | _ => inject_Z 0 end)
    as (n & e & t & Hn & He & Ht & Hnum & Htot).
  { unfold total_latency_of, metric_of.
    destruct (metrics s !! name) as [r|] eqn:Hr; simpl.
    - destruct (Hall _ _ Hr) as (n & e & Hn & He & t & Ht & Hnum).
      exists n, e, t. rewrite Ht. by destruct t.
    - exists 0, 0, (PInt 0). by repeat split. }
  simpl in Hn, He, Ht.
  assert (∃ t', py_add t (PFloat (obs_latency o)) = Val t' ∧
                t' = PFloat (Qplus (total_latency_of s name) (obs_latency o)))
    as (t' & Hadd & Ht').
  { rewrite Htot. destruct t; try done; simpl; eauto. }
  destruct (update_metrics_full name (obs_latency o) (obs_status o) (obs_now o)
              s _ n e t t' eq_refl Hn He Ht Hadd)
    as (s' & r' & Hrun & _ & Hrc & Hec & Hother & Hr' & Hn' & He' & Ht2
        & Hst & Hcs & Hlc & _).
  exists s'. split_and!; try done.
  - intros other r0 Hr0. destruct (decide (other = name)) as [->|Hne].
    + rewrite Hr' in Hr0. injection Hr0 as <-.
      exists (n + 1), (e + error_incr (obs_status o)). split_and!; try done.
      exists t'. split; [done|]. by rewrite Ht'.
    + rewrite Hother in Hr0 by done. eauto.
  - unfold metric_of. by rewrite Hr'.
  - unfold metric_of. by rewrite Hr'.
  - unfold metric_of. by rewrite Hr'.
  - unfold total_latency_of at 1, metric_of. by rewrite Hr', Ht2, Ht'.
Qed.

Lemma record_all_app a b s :
  record_all (a ++ b) s = bind (record_all a) (λ _, record_all b) s.
Proof.
  revert s. induction a as [|o a IH]; intros s; [done|].
  simpl. rewrite bind_assoc. unfold bind at 1 2.
  destruct (record_observation o s) as [[[]|e] s1]; [|done].
  apply IH.
Qed.

Lemma total_latency_of_frame s s' name :
  metrics s' !! name = metrics s !! name →
  total_latency_of s' name = total_latency_of s name.
Proof. intros H. unfold total_latency_of, metric_of. by rewrite H. Qed.

Lemma record_all_full calls : ∀ s,
  all_counted s →
  ∃ s', record_all calls s = (Val tt, s') ∧
        all_counted s' ∧
        request_count s' = request_count s + Z.of_nat (length calls) ∧
        error_count s' = error_count s + errors_of calls ∧
        (∀ name, Forall (λ o, obs_name o ≠ name) calls →
                 metrics s' !! name = metrics s !! name) ∧
        (∀ name, total_latency_of s' name
                 = accumulate (total_latency_of s name)
                     (latencies_naming name calls)).
Proof.
  induction calls as [|o rest IH]; intros s Hall.
  - exists s. split_and!; try done; unfold errors_of; simpl; lia.
  - destruct (record_observation_full o s Hall)
      as (s1 & E1 & Hall1 & Hrc1 & Hec1 & Hother1 & _ & _ & _ & Htot1).
    destruct (IH s1 Hall1) as (s2 & E2 & Hall2 & Hrc2 & Hec2 & Hother2 & Htot2).
    exists s2. simpl record_all. rewrite (bind_run _ _ _ _ _ E1).
    split_and!; try done.
    + rewrite Hrc2, Hrc1, length_cons. lia.
    + rewrite Hec2, Hec1. unfold errors_of. simpl List.filter.
      destruct (is_error o); rewrite ?length_cons; lia.
    + intros name Hnone. apply Forall_cons in Hnone as [Hne Hnone].
      rewrite Hother2 by done. by apply Hother1.
    + intros name. rewrite Htot2. unfold latencies_naming, names.
      simpl List.filter.
      destruct (String.eqb_spec (obs_name o) name) as [<-|Hne].
      * simpl. by rewrite Htot1.
      * f_equal. apply total_latency_of_frame. by apply Hother1.
Qed.

(** X1.  One call of [update_metrics] on a child whose record is absent or
    carries the three counters returns normally.  It adds one to the
    child's and to the global request count, adds one to the child's and to
    the global error count exactly when the status is "error", stores the
    status, the clock reading and the connection status derived from the
    status ("connected" for "healthy", "failed" for "error", "unhealthy"
    for anything else), and leaves every other child's record, the
    descriptors and the active connections as they were. *)
Theorem X1_update_metrics_effect (name : string) (latency : Q)
    (status now : string) (s : GatewayState) :
  (∀ r, metrics s !! name = Some r → ∃ n e, counted r n e) →
  ∃ s', update_metrics name latency status now s = (Val tt, s') ∧
    requestCount s' name = requestCount s name + 1 ∧
    errorCount s' name
      = errorCount s name + (if String.eqb status "error" then 1 else 0) ∧
    request_count s' = request_count s + 1 ∧
    error_count s'
      = error_count s + (if String.eqb status "error" then 1 else 0) ∧
    metric_of s' name "status" = Some (PStr status) ∧
    metric_of s' name "connection_status"
      = Some (PStr (if String.eqb status "healthy" then "connected"
                    else if String.eqb status "error" then "failed"
                    else "unhealthy")) ∧
    metric_of s' name "last_check" = Some (PStr now) ∧
    (∀ other, other ≠ name → metrics s' !! other = metrics s !! other) ∧
    child_servers s' = child_servers s ∧
    active_connections s' = active_connections s.
Proof.
  intros Hrec.
  assert (∃ n e, counted (default zeroed_record (metrics s !! name)) n e ∧
                 requestCount s name = n ∧ errorCount s name = e)
    as (n & e & Hc & Hn & He).
  { unfold requestCount, errorCount, counter.
    destruct (metrics s !! name) as [r|] eqn:Hr; simpl.
    - destruct (Hrec r eq_refl) as (n & e & Hc). exists n, e.
      destruct Hc as (Hn & He & Ht). rewrite Hn, He. by repeat split.
    - exists 0, 0. split; [apply zeroed_record_counted|done]. }
  destruct (update_metrics_run name latency status now s _ n e eq_refl Hc)
    as (s' & r' & Hrun & Hcs & Hac & Hrc & Hec & Hother & Hr'
        & (Hn' & He' & _) & Hst & Hconn & Hlc).
  exists s'. unfold requestCount, errorCount, counter, metric_of in *.
  rewrite Hr', Hn', He'. unfold error_incr, connection_of in *.
  split_and!; try done; congruence.
Qed.

Lemma X1_update_metrics_effect_witness :
  (∀ r, metrics one_proxy_state !! "ado" = Some r → ∃ n e, counted r n e) ∧
  ∃ s', update_metrics "ado" (5 # 2) "error" "t" one_proxy_state
          = (Val tt, s') ∧
    requestCount s' "ado" = requestCount one_proxy_state "ado" + 1 ∧
    errorCount s' "ado" = errorCount one_proxy_state "ado" + 1 ∧
    request_count s' = request_count one_proxy_state + 1 ∧
    error_count s' = error_count one_proxy_state + 1 ∧
    metric_of s' "ado" "status" = Some (PStr "error") ∧
    metric_of s' "ado" "connection_status" = Some (PStr "failed") ∧
    metric_of s' "ado" "last_check" = Some (PStr "t") ∧
    (∀ other, other ≠ "ado" →
              metrics s' !! other = metrics one_proxy_state !! other) ∧
    child_servers s' = child_servers one_proxy_state ∧
    active_connections s' = active_connections one_proxy_state.
Proof.
  assert (∀ r, metrics one_proxy_state !! "ado" = Some r →
               ∃ n e, counted r n e) as Hrec.
  { intros r Hr. simpl in Hr. by rewrite lookup_empty in Hr. }
  split; [exact Hrec|].
  exact (X1_update_metrics_effect "ado" (5 # 2) "error" "t"
           one_proxy_state Hrec).
Defined.

(** X2.  When the child's record exists but has no request_count key,
    [update_metrics] raises [KeyError] at its first increment and leaves
    the whole state as it was: nothing is counted, globally or for the
    child. *)
Theorem X2_update_metrics_missing_counter (name : string) (latency : Q)
    (status now : string) (s : GatewayState) (r : record) :
  metrics s !! name = Some r →
  r !! "request_count" = None →
  update_metrics name latency status now s
    = (Exc (KeyError "request_count"), s).
Proof.
  intros Hr Hk. unfold update_metrics, bind at 1, setdefault_record.
  rewrite Hr. unfold bind at 1, iadd_item. by rewrite Hr, Hk.
Qed.

Lemma X2_update_metrics_missing_counter_witness :
  let s := set_metrics
             {[ "ado" := {[ "connection_status" := PStr "connected" ]} ]}
             one_proxy_state in
  metrics s !! "ado" = Some {[ "connection_status" := PStr "connected" ]} ∧
  ({[ "connection_status" := PStr "connected" ]} : record)
    !! "request_count" = None ∧
  update_metrics "ado" (5 # 2) "healthy" "t" s
    = (Exc (KeyError "request_count"), s).
Proof.
  cbv zeta. split; [reflexivity|]. split; [reflexivity|].
  apply (X2_update_metrics_missing_counter "ado" (5 # 2) "healthy" "t" _
           {[ "connection_status" := PStr "connected" ]});
    reflexivity.
Defined.

(** X3.  After any sequence of [update_metrics] calls from the initial
    state, the global error counter is the number of calls whose status is
    "error", whatever child they name, and it never exceeds the global
    request counter. *)
Theorem X3_global_error_counter (t0 t1 : Z) (calls : list observation) :
  ∃ s', record_all calls (initial_state t0 t1) = (Val tt, s') ∧
        error_count s' = errors_of calls ∧
        0 ≤ error_count s' ≤ request_count s'.
Proof.
  destruct (record_all_full calls (initial_state t0 t1)
              (initial_state_all_counted t0 t1))
    as (s' & Hrun & _ & Hrc & Hec & _).
  exists s'. split; [done|]. simpl in Hrc, Hec. rewrite Hrc, Hec.
  split; [done|]. unfold errors_of.
  pose proof (List.filter_length_le is_error calls). lia.
Qed.

(** X4.  The stored status is that of the most recent observation: after
    a sequence of [update_metrics] calls from the initial state, the
    status, connection status and last-check time of a child are those
    written by the last call that names it. *)
Theorem X4_last_observation_wins (t0 t1 : Z) (pre post : list observation)
    (o : observation) :
  Forall (λ o', obs_name o' ≠ obs_name o) post →
  ∃ s', record_all (pre ++ o :: post) (initial_state t0 t1) = (Val tt, s') ∧
        metric_of s' (obs_name o) "status" = Some (PStr (obs_status o)) ∧
        metric_of s' (obs_name o) "connection_status"
          = Some (PStr (connection_of (obs_status o))) ∧
        metric_of s' (obs_name o) "last_check" = Some (PStr (obs_now o)).
Proof.
  intros Hpost.
  destruct (record_all_full pre (initial_state t0 t1)
              (initial_state_all_counted t0 t1)) as (s1 & E1 & Hall1 & _).
  destruct (record_observation_full o s1 Hall1)
    as (s2 & E2 & Hall2 & _ & _ & _ & Hst & Hcs & Hlc & _).
  destruct (record_all_full post s2 Hall2) as (s3 & E3 & _ & _ & _ & Hfr & _).
  exists s3. split.
  - rewrite record_all_app, (bind_run _ _ _ _ _ E1). simpl.
    by rewrite (bind_run _ _ _ _ _ E2).
  - unfold metric_of in *. rewrite (Hfr _ Hpost). done.
Qed.

Lemma X4_last_observation_wins_witness :
  let o1 := {| obs_name := "ado"; obs_latency := 5 # 2;
               obs_status := "error"; obs_now := "t1" |} in
  let o2 := {| obs_name := "ado"; obs_latency := 1 # 2;
               obs_status := "healthy"; obs_now := "t2" |} in
  let o3 := {| obs_name := "docs"; obs_latency := 1 # 1;
               obs_status := "error"; obs_now := "t3" |} in
  Forall (λ o', obs_name o' ≠ obs_name o2) [o3] ∧
  ∃ s', record_all ([o1] ++ o2 :: [o3]) (initial_state 0 0) = (Val tt, s') ∧
        metric_of s' (obs_name o2) "status" = Some (PStr (obs_status o2)) ∧
        metric_of s' (obs_name o2) "connection_status"
          = Some (PStr (connection_of (obs_status o2))) ∧
        metric_of s' (obs_name o2) "last_check" = Some (PStr (obs_now o2)).
Proof.
  cbv zeta.
  assert (Forall (λ o', obs_name o' ≠ "ado")
            [{| obs_name := "docs"; obs_latency := 1 # 1;
                obs_status := "error"; obs_now := "t3" |}]) as Hpost.
  { constructor; [simpl; discriminate|constructor]. }
  split; [exact Hpost|].
  exact (X4_last_observation_wins 0 0 _ _
           {| obs_name := "ado"; obs_latency := 1 # 2;
              obs_status := "healthy"; obs_now := "t2" |} Hpost).
Defined.

(** X5.  After any sequence of [update_metrics] calls from the initial
    state, the cumulative latency of a child is the sum of the latencies
    of the calls naming it, added in call order starting from 0. *)
Theorem X5_total_latency_is_sum (t0 t1 : Z) (calls : list observation)
    (name : string) :
  ∃ s', record_all calls (initial_state t0 t1) = (Val tt, s') ∧
        total_latency_of s' name
          = accumulate (inject_Z 0) (latencies_naming name calls).
Proof.
  destruct (record_all_full calls (initial_state t0 t1)
              (initial_state_all_counted t0 t1))
    as (s' & Hrun & _ & _ & _ & _ & Htot).
  exists s'. split; [done|]. by rewrite Htot.
Qed.

(** ** The per-child health endpoint, further cases *)

Lemma counted_or_absent name s :
  (∀ r, metrics s !! name = Some r → ∃ n e, counted r n e) →
  ∃ n e, counted (default zeroed_record (metrics s !! name)) n e ∧
         requestCount s name = n ∧ errorCount s name = e.
Proof.
  intros Hrec. unfold requestCount, errorCount, counter.
  destruct (metrics s !! name) as [r|] eqn:Hr; simpl.
  - destruct (Hrec r eq_refl) as (n & e & Hc). exists n, e.
    destruct Hc as (Hn & He & Ht). rewrite Hn, He. by repeat split.
  - exists 0, 0. split; [apply zeroed_record_counted|done].
Qed.

(** X6.  The per-child health check of a registered child that is not a
    proxy never probes the network: whatever the network does, it records
    one "healthy" observation (connection status "connected", request
    count plus one, no error counted) and answers 200 with type "mount". *)
Theorem X6_health_check_module (net : network) (latency : Q)
    (now server_name : string) (s : GatewayState) (info : entry) :
  child_servers s !! server_name = Some info →
  is_Some (info !! "type") →
  has_type "proxy" info = false →
  (∀ r, metrics s !! server_name = Some r → ∃ n e, counted r n e) →
  ∃ s',
    server_health_check net latency now server_name s =
      (Val (JSONResponse 200
              [("server", PStr server_name); ("type", PStr "mount");
               ("status", PStr "healthy")]), s') ∧
    metric_of s' server_name "connection_status" = Some (PStr "connected") ∧
    metric_of s' server_name "status" = Some (PStr "healthy") ∧
    requestCount s' server_name = requestCount s server_name + 1 ∧
    errorCount s' server_name = errorCount s server_name ∧
    request_count s' = request_count s + 1 ∧
    error_count s' = error_count s.
Proof.
  intros Hinfo Hty Hnp Hrec.
  destruct (counted_or_absent _ _ Hrec) as (n & e & Hc & Hn & He).
  destruct (update_metrics_run server_name latency "healthy" now s _ n e
              eq_refl Hc)
    as (s' & r' & Hrun & _ & _ & Hrc & Hec & _ & Hr' & (Hn' & He' & _)
        & Hst & Hcs & _).
  exists s'. split_and!.
  - unfold server_health_check, bind at 1, get. rewrite Hinfo.
    unfold bind at 1. rewrite lift_run, (type_is_has_type _ _ Hty), Hnp.
    unfold bind at 1. by rewrite Hrun.
  - unfold metric_of. by rewrite Hr'.
  - unfold metric_of. by rewrite Hr'.
  - unfold requestCount, counter in *. rewrite Hr', Hn'. by rewrite Hn.
  - unfold errorCount, counter in *. rewrite Hr', He'.
    rewrite He. unfold error_incr. simpl. lia.
  - done.
  - rewrite Hec. unfold error_incr. simpl. lia.
Qed.

Lemma X6_health_check_module_witness :
  child_servers two_children_state !! "docs"
    = Some (module_entry "docs" "mcp_server") ∧
  ∃ s',
    server_health_check net_down (1 # 2) "t" "docs" two_children_state =
      (Val (JSONResponse 200
              [("server", PStr "docs"); ("type", PStr "mount");
               ("status", PStr "healthy")]), s') ∧
    metric_of s' "docs" "connection_status" = Some (PStr "connected") ∧
    metric_of s' "docs" "status" = Some (PStr "healthy") ∧
    requestCount s' "docs" = requestCount two_children_state "docs" + 1 ∧
    errorCount s' "docs" = errorCount two_children_state "docs" ∧
    request_count s' = request_count two_children_state + 1 ∧
    error_count s' = error_count two_children_state.
Proof.
  split; [reflexivity|].
  apply (X6_health_check_module net_down (1 # 2) "t" "docs"
           two_children_state (module_entry "docs" "mcp_server")).
  - reflexivity.
  - by eexists.
  - reflexivity.
  - intros r Hr. simpl in Hr. by rewrite lookup_empty in Hr.
Defined.





(** ** Health URLs *)

Lemma prefix_true_app old : ∀ s,
  String.prefix old s = true → ∃ post, s = old ++ post.
Proof.
  induction old as [|a old IH]; intros s H.
  - exists s. done.
  - destruct s as [|b s]; [done|]. simpl in H.
    destruct (Ascii.ascii_dec a b) as [->|]; [|done].
    destruct (IH s H) as (post & ->). by exists post.
Qed.

Lemma occurs_tail old c s : occurs old s → occurs old (String c s).
Proof. intros (pre & post & ->). by exists (String c pre), post. Qed.

Lemma str_replace_absent old new : ∀ s,
  ¬ occurs old s → str_replace_from old new 0 s = s.
Proof.
  induction s as [|c s IH]; intros Hno; [done|].
  cbn [str_replace_from].
  destruct (String.prefix old (String c s)) eqn:Hp.
  - exfalso. apply Hno. destruct (prefix_true_app _ _ Hp) as (post & ->).
    by exists "", post.
  - f_equal. apply IH. intros Hocc. apply Hno. by apply occurs_tail.
Qed.

Lemma str_replace_mcp_suffix : ∀ base,
  ¬ occurs "/mcp" base →
  str_replace_from "/mcp" "" 0 (base ++ "/mcp") = base.
Proof.
  induction base as [|c base IH]; intros Hno; [done|].
  change (String c base ++ "/mcp") with (String c (base ++ "/mcp")).
  cbn [str_replace_from].
  destruct (String.prefix "/mcp" (String c (base ++ "/mcp"))) eqn:Hp.
  - exfalso. destruct (prefix_true_app _ _ Hp) as (post & Heq).
    destruct base as [|c2 [|c3 [|c4 rest]]]; simpl in Heq; try discriminate.
    injection Heq as -> -> -> -> _.
    apply Hno. by exists "", rest.
  - f_equal. apply IH. intros Hocc. apply Hno. by apply occurs_tail.
Qed.

(** X9.  [s.replace(old, new)] returns [s] unchanged when [old] does not
    occur in [s]; in particular a URL without "/mcp" is probed as it is
    configured. *)
Theorem X9_replace_without_occurrence (old new s : string) :
  ¬ occurs old s → str_replace old new s = s.
Proof. apply str_replace_absent. Qed.

Lemma not_occurs_mcp_localhost : ¬ occurs "/mcp" "http://localhost:8002".
Proof.
  intros (pre & post & Heq).
  do 21 (destruct pre as [|? pre]; simpl in Heq;
         [discriminate|injection Heq as _ Heq]).
  destruct pre; discriminate.
Defined.

Lemma X9_replace_without_occurrence_witness :
  ¬ occurs "/mcp" "http://localhost:8002" ∧
  str_replace "/mcp" "" "http://localhost:8002" = "http://localhost:8002".
Proof.
  split; [exact not_occurs_mcp_localhost|].
  exact (X9_replace_without_occurrence "/mcp" "" "http://localhost:8002"
           not_occurs_mcp_localhost).
Defined.

(** X10.  For a Proxy child whose url is a base followed by "/mcp", with
    no other occurrence of "/mcp" in the base, and which has no
    health_endpoint override, both the periodic prober and the per-child
    health check request the base followed by "/health". *)
Theorem X10_default_health_url (info : entry) (base : string) :
  ¬ occurs "/mcp" base →
  info !! "url" = Some (JStr (base ++ "/mcp")) →
  info !! "health_endpoint" = None →
  check_url_of info = Val (base ++ "/health") ∧
  health_url_of info = Val (base ++ "/health").
Proof.
  intros Hno Hurl Hhe. unfold check_url_of, health_url_of, getitem.
  rewrite Hurl, Hhe. simpl. unfold str_replace.
  by rewrite (str_replace_mcp_suffix base Hno).
Qed.

Lemma X10_default_health_url_witness :
  ¬ occurs "/mcp" "http://localhost:8002" ∧
  check_url_of ado_entry = Val "http://localhost:8002/health" ∧
  health_url_of ado_entry = Val "http://localhost:8002/health".
Proof.
  split; [exact not_occurs_mcp_localhost|].
  exact (X10_default_health_url ado_entry "http://localhost:8002"
           not_occurs_mcp_localhost eq_refl eq_refl).
Defined.

(** X11.  The periodic prober and the per-child health check compute the
    same health URL for every descriptor whose url is a string: the same
    URL when it can be built, and the same exception when it cannot. *)
Theorem X11_health_urls_agree (info : entry) (url : string) :
  info !! "url" = Some (JStr url) →
  check_url_of info = health_url_of info.
Proof.
  intros Hurl. unfold check_url_of, health_url_of, getitem.
  rewrite Hurl. simpl.
  by destruct (info !! "health_endpoint") as [[he|o]|].
Qed.

Lemma X11_health_urls_agree_witness :
  let info : entry :=
    <["health_endpoint" := JStr "https://status.example/ado"]> ado_entry in
  info !! "url" = Some (JStr "http://localhost:8002/mcp") ∧
  check_url_of info = health_url_of info.
Proof.
  cbv zeta. split; [reflexivity|].
  exact (X11_health_urls_agree
           (<["health_endpoint" := JStr "https://status.example/ado"]>
              ado_entry)
           "http://localhost:8002/mcp" eq_refl).
Defined.

(** ** Aggregate metrics *)

Lemma fraction_bounds (e r : Z) :
  0 ≤ e ≤ r →
  Qle (inject_Z 0) (Qdiv (inject_Z e) (inject_Z (Z.max r 1))) ∧
  Qle (Qdiv (inject_Z e) (inject_Z (Z.max r 1))) (inject_Z 1).
Proof.
  intros He. assert (1 ≤ Z.max r 1) as Hmax by lia.
  assert (e ≤ Z.max r 1) as Hle by lia.
  destruct (Z.max r 1) as [|p|p]; try lia.
  unfold Qle, Qdiv, Qmult, Qinv, inject_Z. simpl. lia.
Qed.

(** X12.  After any sequence of [update_metrics] calls from the initial
    state, the error rate reported by [GET /metrics] is the number of
    "error" calls divided by the number of calls (by 1 when there was no
    call), and lies between 0 and 1. *)
Theorem X12_error_rate_is_fraction (t0 t1 : Z) (calls : list observation) :
  ∃ s', record_all calls (initial_state t0 t1) = (Val tt, s') ∧
        error_rate s'
          = Qdiv (inject_Z (errors_of calls))
                 (inject_Z (Z.max (Z.of_nat (length calls)) 1)) ∧
        Qle (inject_Z 0) (error_rate s') ∧
        Qle (error_rate s') (inject_Z 1).
Proof.
  destruct (record_all_full calls (initial_state t0 t1)
              (initial_state_all_counted t0 t1))
    as (s' & Hrun & _ & Hrc & Hec & _).
  exists s'. split; [done|]. simpl in Hrc, Hec.
  unfold error_rate. rewrite Hrc, Hec. split; [done|].
  apply fraction_bounds. unfold errors_of.
  pose proof (List.filter_length_le is_error calls). lia.
Qed.

(** ** Health prober: what it leaves alone *)

Lemma check_module_frame now name info s :
  is_Some (info !! "type") →
  ∃ s', check_module now (name, info) s = (Val tt, s') ∧
        only_record_changed name s s' ∧
        module_loop_frame now info (metrics s !! name) (metrics s' !! name).
Proof.
  intros Ht. unfold check_module, module_loop_frame.
  unfold bind at 1. rewrite lift_run, (type_is_has_type _ _ Ht).
  destruct (has_type "module" info).
  - destruct (setdefault_record_run name (module_record now) s)
      as (s1 & E1 & F1 & R1).
    destruct (set_item_run name "connection_status" (PStr "connected") s1 _ R1)
      as (s2 & E2 & F2 & R2).
    exists s2. split; [|split].
    + by rewrite (bind_run _ _ _ _ _ E1).
    + by eapply only_record_changed_trans.
    + eexists. split; [exact R2|]. intros key H1 H2.
      by rewrite lookup_insert_ne.
  - exists s. split; [done|]. split; [apply only_record_changed_refl|done].
Qed.

Lemma mark_connection_frame name status s :
  ∃ s', (setdefault_record name ∅ ;;;
         set_item name "connection_status" (PStr status)) s = (Val tt, s') ∧
        only_record_changed name s s' ∧
        keeps_other_keys ∅ (metrics s !! name) (metrics s' !! name).
Proof.
  destruct (setdefault_record_run name ∅ s) as (s1 & E1 & F1 & R1).
  destruct (set_item_run name "connection_status" (PStr status) s1 _ R1)
    as (s2 & E2 & F2 & R2).
  exists s2. split; [|split].
  - by rewrite (bind_run _ _ _ _ _ E1).
  - by eapply only_record_changed_trans.
  - eexists. split; [exact R2|]. intros key H1 H2.
    by rewrite lookup_insert_ne.
Qed.

Lemma check_proxy_frame net now name info s :
  has_type "proxy" info = true →
  ∃ s', check_proxy net now (name, info) s = (Val tt, s') ∧
        only_record_changed name s s' ∧
        probe_frame info (metrics s !! name) (metrics s' !! name).
Proof.
  intros Hp.
  assert (type_is "proxy" info = Val true) as Hty.
  { unfold has_type in Hp. unfold type_is, getitem.
    destruct (info !! "type"); [by rewrite Hp|done]. }
  unfold check_proxy, probe_frame.
  unfold bind at 1. rewrite lift_run, Hty. cbn [negb].
  unfold try_except, bind at 1. rewrite lift_run.
  destruct (check_url_of info) as [url|e].
  - unfold bind at 1, client_get. rewrite lift_run.
    destruct (net url 2) as [code|].
    + destruct (code =? 200).
      * destruct (setdefault_record_run name ∅ s) as (s1 & E1 & F1 & R1).
        destruct (set_item_run name "connection_status" (PStr "connected")
                    s1 _ R1) as (s2 & E2 & F2 & R2).
        destruct (set_item_run name "last_check" (PStr now) s2 _ R2)
          as (s3 & E3 & F3 & R3).
        exists s3. split; [|split].
        -- rewrite (bind_run _ _ _ _ _ E1), (bind_run _ _ _ _ _ E2), E3.
           reflexivity.
        -- eapply only_record_changed_trans; [exact F1|].
           by eapply only_record_changed_trans.
        -- eexists. split; [exact R3|]. intros key H1 H2.
           by rewrite !lookup_insert_ne.
      * destruct (mark_connection_frame name "unhealthy" s)
          as (s' & E & F & R).
        exists s'. by rewrite E.
    + apply mark_connection_frame.
  - apply mark_connection_frame.
Qed.

(** What one run of the prober does to the record of each name. *)
Lemma check_server_connections_frame net now s :
  typed_children s →
  ∃ s', check_server_connections net now s = (Val tt, s') ∧
        only_metrics_changed s s' ∧
        ∀ name,
          match child_servers s !! name with
          | Some info =>
              if has_type "proxy" info
              then keeps_other_keys ∅ (metrics s !! name) (metrics s' !! name)
              else if has_type "module" info
              then keeps_other_keys (module_record now)
                     (metrics s !! name) (metrics s' !! name)
              else metrics s' !! name = metrics s !! name
          | None => metrics s' !! name = metrics s !! name
          end.
Proof.
  intros Htyped. unfold check_server_connections, bind at 1, get.
  set (items := map_to_list (child_servers s)).
  assert (NoDup items.*1) as Hdup by apply NoDup_fst_map_to_list.
  assert (∀ name info, (name, info) ∈ items ↔
                       child_servers s !! name = Some info) as Hitems
    by (intros; apply elem_of_map_to_list).
  destruct (for_each_records (check_module now) (module_loop_frame now)
              items Hdup) with (s := s) as (s1 & E1 & F1 & Hout1 & Q1).
  { intros name info s0 Hin. apply check_module_frame.
    apply (Htyped name). by apply Hitems. }
  rewrite (bind_run _ _ _ _ _ E1).
  destruct (proxy_items_run items) as (tasks & Htasks & Hsub & Hin).
  { apply Forall_forall. intros [name info] Hitem. simpl.
    apply (Htyped name). by apply Hitems. }
  unfold bind at 1. rewrite lift_run, Htasks.
  assert (NoDup tasks.*1) as Hdup'.
  { eapply sublist_NoDup; [exact Hdup|]. by apply fmap_sublist. }
  destruct (for_each_records (check_proxy net now) probe_frame tasks Hdup')
    with (s := s1) as (s2 & E2 & F2 & Hout2 & Q2).
  { intros name info s0 Htask. apply check_proxy_frame.
    by apply (Hin name info). }
  exists s2. split; [exact E2|].
  split; [by eapply only_metrics_changed_trans|].
  intros name. destruct (child_servers s !! name) as [info|] eqn:Hinfo.
  - apply Hitems in Hinfo as Hitem.
    pose proof (Q1 name info Hitem) as Hm. unfold module_loop_frame in Hm.
    destruct (has_type "proxy" info) eqn:Hp.
    + assert (has_type "module" info = false) as Hnm.
      { unfold has_type in *. destruct (info !! "type") as [[t|o]|]; try done.
        simpl in *. apply String.eqb_eq in Hp as ->. done. }
      rewrite Hnm in Hm.
      pose proof (Q2 name info) as Hq. unfold probe_frame in Hq.
      rewrite Hm in Hq. apply Hq. by apply Hin.
    + assert (name ∉ tasks.*1) as Hnot.
      { intros Hname.
        apply list_elem_of_fmap in Hname as ([n' info'] & -> & Htask).
        simpl in *. apply Hin in Htask as [Hitem' Hp'].
        apply Hitems in Hitem'. rewrite Hinfo in Hitem'.
        injection Hitem' as <-. congruence. }
      rewrite (Hout2 name Hnot).
      destruct (has_type "module" info); done.
  - assert (name ∉ items.*1) as Hnot.
    { intros Hname.
      apply list_elem_of_fmap in Hname as ([n' info'] & -> & Hitem).
      apply Hitems in Hitem. simpl in *. congruence. }
    rewrite Hout2, Hout1; [done|done|].
    intros Hname. apply Hnot.
    apply list_elem_of_fmap in Hname as ([n' info'] & -> & Htask).
    apply list_elem_of_fmap. exists (n', info'). split; [done|].
    by apply Hin.
Qed.

Lemma keeps_other_keys_counter r0 old new key :
  "connection_status" ≠ key → "last_check" ≠ key →
  keeps_other_keys r0 old new →
  (old = None → r0 !! key = Some (PInt 0) ∨ r0 !! key = None) →
  match new with
  | Some r => match r !! key with Some (PInt n) => n | _ => 0 end
  | None => 0
  end =
  match old with
  | Some r => match r !! key with Some (PInt n) => n | _ => 0 end
  | None => 0
  end.
Proof.
  intros H1 H2 (r & -> & Hkeys) H0. rewrite (Hkeys key H1 H2).
  destruct old as [r1|]; simpl; [done|].
  destruct (H0 eq_refl) as [-> | ->]; done.
Qed.

(** X13.  A run of the prober is not an observation: on a typed state
    store it returns normally and changes neither the global request and
    error counters, nor any child's request or error count, nor the
    descriptors, nor the active connections. *)
Theorem X13_prober_keeps_counters (net : network) (now : string)
    (s : GatewayState) :
  typed_children s →
  ∃ s', check_server_connections net now s = (Val tt, s') ∧
        request_count s' = request_count s ∧
        error_count s' = error_count s ∧
        child_servers s' = child_servers s ∧
        active_connections s' = active_connections s ∧
        ∀ name, requestCount s' name = requestCount s name ∧
                errorCount s' name = errorCount s name.
Proof.
  intros Htyped.
  destruct (check_server_connections_frame net now s Htyped)
    as (s' & Hrun & (Hcs & _ & Hrc & Hec & Hac & _) & Hall).
  exists s'. split_and!; try done.
  intros name. specialize (Hall name).
  unfold requestCount, errorCount, counter.
  destruct (child_servers s !! name) as [info|]; [|by rewrite Hall].
  destruct (has_type "proxy" info);
    [|destruct (has_type "module" info); [|by rewrite Hall]].
  - split; apply (keeps_other_keys_counter ∅); try done; by right.
  - split; apply (keeps_other_keys_counter (module_record now));
      try done; by left.
Qed.

Lemma X13_prober_keeps_counters_witness :
  typed_children two_children_state ∧
  ∃ s', check_server_connections net_ok "t" two_children_state
          = (Val tt, s') ∧
        request_count s' = request_count two_children_state ∧
        error_count s' = error_count two_children_state ∧
        child_servers s' = child_servers two_children_state ∧
        active_connections s' = active_connections two_children_state ∧
        ∀ name, requestCount s' name = requestCount two_children_state name ∧
                errorCount s' name = errorCount two_children_state name.
Proof.
  split; [exact two_children_state_typed|].
  exact (X13_prober_keeps_counters net_ok "t" two_children_state
           two_children_state_typed).
Defined.

Lemma keeps_other_keys_counted r0 old r :
  keeps_other_keys r0 old (Some r) →
  (∃ n e, counted (default r0 old) n e) →
  ∃ n e, counted r n e.
Proof.
  intros (r' & [= <-] & Hkeys) (n & e & Hn & He & t & Ht & Hnum).
  exists n, e. unfold counted. rewrite !Hkeys by done. eauto.
Qed.

(** X14.  When every record carries the three counters and every Proxy
    child already has a record, a run of the prober keeps it so: every
    record still carries the three counters afterwards (the records the
    prober creates for Module children included), so [update_metrics] and
    [GET /status] remain safe to call. *)
Theorem X14_prober_keeps_records_counted (net : network) (now : string)
    (s : GatewayState) :
  typed_children s →
  all_counted s →
  (∀ name info, child_servers s !! name = Some info →
                has_type "proxy" info = true → is_Some (metrics s !! name)) →
  ∃ s', check_server_connections net now s = (Val tt, s') ∧ all_counted s'.
Proof.
  intros Htyped Hcounted Hproxies.
  destruct (check_server_connections_frame net now s Htyped)
    as (s' & Hrun & _ & Hall).
  exists s'. split; [done|].
  intros name r Hr. specialize (Hall name).
  destruct (child_servers s !! name) as [info|] eqn:Hinfo;
    [|rewrite Hall in Hr; by eapply Hcounted].
  destruct (has_type "proxy" info) eqn:Hp;
    [|destruct (has_type "module" info); [|rewrite Hall in Hr; by eapply Hcounted]].
  - rewrite Hr in Hall. eapply keeps_other_keys_counted; [exact Hall|].
    destruct (Hproxies name info Hinfo Hp) as [r0 Hr0]. rewrite Hr0. simpl.
    by eapply Hcounted.
  - rewrite Hr in Hall. eapply keeps_other_keys_counted; [exact Hall|].
    destruct (metrics s !! name) as [r0|] eqn:Hr0; simpl.
    + by eapply Hcounted.
    + exists 0, 0. apply module_record_counted.
Qed.

Lemma two_children_probed_ready :
  let s := (update_metrics "ado" (1 # 2) "healthy" "t" two_children_state).2 in
  typed_children s ∧ all_counted s ∧
  (∀ name info, child_servers s !! name = Some info →
                has_type "proxy" info = true → is_Some (metrics s !! name)).
Proof.
  cbv zeta.
  destruct (update_metrics_run "ado" (1 # 2) "healthy" "t" two_children_state
              zeroed_record 0 0 eq_refl zeroed_record_counted)
    as (s' & r' & Hrun & Hcs & _ & _ & _ & Hother & Hr' & Hc' & _).
  rewrite Hrun. simpl. split_and!.
  - intros name info H. rewrite Hcs in H.
    by apply (two_children_state_typed name).
  - intros name r Hr. destruct (decide (name = "ado")) as [->|Hne].
    + rewrite Hr' in Hr. injection Hr as <-. eauto.
    + rewrite Hother in Hr by done. simpl in Hr.
      by rewrite lookup_empty in Hr.
  - intros name info H Hp. rewrite Hcs in H. simpl in H.
    apply lookup_insert_Some in H as [[<- <-]|[_ H]]; [done|].
    apply lookup_singleton_Some in H as [<- <-]. by rewrite Hr'.
Defined.

Lemma X14_prober_keeps_records_counted_witness :
  let s := (update_metrics "ado" (1 # 2) "healthy" "t" two_children_state).2 in
  (typed_children s ∧ all_counted s ∧
   (∀ name info, child_servers s !! name = Some info →
                 has_type "proxy" info = true → is_Some (metrics s !! name))) ∧
  ∃ s', check_server_connections net_down "t" s = (Val tt, s') ∧
        all_counted s'.
Proof.
  cbv zeta. split; [exact two_children_probed_ready|].
  exact (X14_prober_keeps_records_counted net_down "t" _
           (proj1 two_children_probed_ready)
           (proj1 (proj2 two_children_probed_ready))
           (proj2 (proj2 two_children_probed_ready))).
Defined.

(** ** Registry / mounter: invariants of loading *)

Lemma store_descriptor_spec name server_config st :
  match name with
  | JStr n =>
      store_descriptor name server_config st
        = Next (set_gw (set_child_servers
                          (<[n := server_config]> (child_servers (gw st)))
                          (gw st)) st)
  | JObj _ => store_descriptor name server_config st = Abort TypeError st
  end.
Proof. by destruct name. Qed.

(** One iteration either leaves the descriptors alone or stores the entry
    under its own name; the attached children and the log only grow. *)
Lemma load_entry_effect w server_config st :
  let st' := state_of (load_entry w server_config st) in
  (child_servers (gw st') = child_servers (gw st) ∨
   ∃ n, server_config !! "name" = Some (JStr n) ∧
        is_Some (server_config !! "type") ∧
        child_servers (gw st')
          = <[n := server_config]> (child_servers (gw st))) ∧
  (∃ more, mounted st' = (mounted st ++ more)%list) ∧
  (∃ more, log st' = (log st ++ more)%list).
Proof.
  cbv zeta. unfold load_entry.
  destruct (server_config !! "name") as [name|] eqn:Hn;
    [|split_and!; [by left|by exists []; rewrite app_nil_r..]].
  destruct (server_config !! "type") as [ty|] eqn:Hty;
    [|split_and!; [by left|by exists []; rewrite app_nil_r..]].
  assert (∀ st0, let st1 := state_of (store_descriptor name server_config st0) in
            (child_servers (gw st1) = child_servers (gw st0) ∨
             ∃ n, Some name = Some (JStr n) ∧ is_Some (Some ty) ∧
                  child_servers (gw st1)
                    = <[n := server_config]> (child_servers (gw st0))) ∧
            mounted st1 = mounted st0 ∧ log st1 = log st0) as Hstore.
  { intros st0. destruct name as [n|o]; simpl; [|by split_and!; [left|..]].
    split_and!; try done. right. exists n. by split_and!. }
  destruct (j_is "proxy" ty).
  - destruct (server_config !! "url") as [url|];
      [|split_and!; [by left|by exists []; rewrite app_nil_r|by eexists]].
    destruct (bearer_headers _ _) as [headers|];
      [|split_and!; [by left|by exists []; rewrite app_nil_r|by eexists]].
    destruct (proxy_mounts w url name _).
    + match goal with |- context [store_descriptor name server_config ?x] =>
        destruct (Hstore x) as (Hc & Hm & Hl) end.
      rewrite Hm, Hl. simpl. split_and!; [exact Hc|by eexists|].
      rewrite <- app_assoc. by eexists.
    + simpl. split_and!; [by left|by exists []; rewrite app_nil_r|].
      rewrite <- app_assoc. by eexists.
  - destruct (j_is "module" ty).
    + destruct (default _ _) as [x|vars].
      { simpl. split_and!; [by left|by exists []; rewrite app_nil_r|].
        rewrite <- app_assoc. by eexists. }
      destruct (module_mounts _ _ _);
        try (simpl; split_and!; [by left|by exists []; rewrite app_nil_r|];
             rewrite <- app_assoc; by eexists).
      match goal with |- context [store_descriptor name server_config ?x] =>
        destruct (Hstore x) as (Hc & Hm & Hl) end.
      rewrite Hm, Hl. simpl. split_and!; [exact Hc|by eexists|].
      rewrite <- app_assoc. by eexists.
    + match goal with |- context [store_descriptor name server_config ?x] =>
        destruct (Hstore x) as (Hc & Hm & Hl) end.
      rewrite Hm, Hl. simpl. split_and!; [exact Hc| |by eexists].
      by exists []; rewrite app_nil_r.
Qed.

Lemma load_entries_invariant (I : loader_state → Prop) w :
  (∀ ev st, I st → I (add_log ev st)) →
  (∀ c st, I st → I (state_of (load_entry w c st))) →
  ∀ entries st, I st → I (load_entries w entries st).
Proof.
  intros Hlog Hstep. induction entries as [|c rest IH]; intros st Hst; [done|].
  simpl. pose proof (Hstep c st Hst) as H.
  destruct (load_entry w c st) as [st'|e st']; simpl in H.
  - by apply IH.
  - by apply Hlog.
Qed.

(** X15.  Whatever the configuration and the outcome of the mounts, every
    descriptor that loading leaves in the state store is stored under the
    name its entry gives and has a type. *)
Theorem X15_descriptors_named_and_typed (w : world)
    (config : option (list entry)) (env : gmap string string) :
  named_children (gw (load_child_servers w config (loader_start env))).
Proof.
  destruct config as [entries|]; simpl.
  - apply (load_entries_invariant (λ st, named_children (gw st))).
    + done.
    + intros c st Hst name info Hinfo.
      destruct (load_entry_effect w c st) as ([Hsame|(n & Hn & Hty & Hnew)] & _).
      * rewrite Hsame in Hinfo. by apply Hst.
      * rewrite Hnew in Hinfo.
        apply lookup_insert_Some in Hinfo as [[<- <-]|[_ Hinfo]];
          [done|by apply Hst].
    + intros name info Hinfo. simpl in Hinfo. by rewrite lookup_empty in Hinfo.
  - intros name info Hinfo. simpl in Hinfo. by rewrite lookup_empty in Hinfo.
Qed.

(** X16.  Loading only adds: every descriptor present before loading is
    still registered afterwards (possibly replaced by a later entry of the
    same name), and the children attached before and the log written
    before are kept in front of what loading appends. *)
Theorem X16_loading_only_adds (w : world) (config : option (list entry))
    (st : loader_state) :
  let st' := load_child_servers w config st in
  (∀ name, is_Some (child_servers (gw st) !! name) →
           is_Some (child_servers (gw st') !! name)) ∧
  (∃ more, mounted st' = (mounted st ++ more)%list) ∧
  (∃ more, log st' = (log st ++ more)%list).
Proof.
  cbv zeta. destruct config as [entries|]; simpl;
    [|split_and!; [done|by exists []; rewrite app_nil_r..]].
  apply (load_entries_invariant
           (λ st', (∀ name, is_Some (child_servers (gw st) !! name) →
                            is_Some (child_servers (gw st') !! name)) ∧
                   (∃ more, mounted st' = (mounted st ++ more)%list) ∧
                   (∃ more, log st' = (log st ++ more)%list))).
  - intros ev st0 (Hc & Hm & [more Hl]). split_and!; try done.
    simpl. rewrite Hl, <- app_assoc. by eexists.
  - intros c st0 (Hc & [m0 Hm] & [l0 Hl]).
    destruct (load_entry_effect w c st0) as (Hc1 & [m1 Hm1] & [l1 Hl1]).
    split_and!.
    + intros name Hname. apply Hc in Hname.
      destruct Hc1 as [->|(n & _ & _ & ->)]; [done|].
      destruct (decide (n = name)) as [->|Hne].
      * rewrite lookup_insert_eq. by eexists.
      * by rewrite lookup_insert_ne.
    + rewrite Hm1, Hm, <- app_assoc. by eexists.
    + rewrite Hl1, Hl, <- app_assoc. by eexists.
  - split_and!; [done|by exists []; rewrite app_nil_r..].
Qed.

Lemma has_mount_app mounts more name info :
  has_mount mounts name info → has_mount (mounts ++ more) name info.
Proof.
  intros [Hp Hm]. split.
  - intros H. destruct (Hp H) as (url & prefix & Hu & Hin).
    exists url, prefix. split; [done|]. apply elem_of_app. by left.
  - intros H1 H2. destruct (Hm H1 H2) as (prefix & Hin).
    exists prefix. apply elem_of_app. by left.
Qed.

Lemma store_descriptor_mounted_inv name server_config st :
  descriptors_mounted st →
  (∀ n, name = JStr n → has_mount (mounted st) n server_config) →
  descriptors_mounted (state_of (store_descriptor name server_config st)).
Proof.
  intros Hst Hnew. destruct name as [n|o]; simpl; [|done].
  intros nm info Hinfo. simpl in Hinfo.
  apply lookup_insert_Some in Hinfo as [[<- <-]|[_ Hinfo]].
  - by apply Hnew.
  - by apply Hst.
Qed.

Lemma descriptors_mounted_grow st st' more :
  gw st' = gw st → mounted st' = (mounted st ++ more)%list →
  descriptors_mounted st → descriptors_mounted st'.
Proof.
  intros Hgw Hm Hst name info Hinfo. rewrite Hgw in Hinfo. rewrite Hm.
  apply has_mount_app. by apply Hst.
Qed.

Lemma descriptors_mounted_add_log ev st :
  descriptors_mounted st → descriptors_mounted (add_log ev st).
Proof.
  intros H. apply (descriptors_mounted_grow st _ []); [done| |done].
  simpl. by rewrite app_nil_r.
Qed.

Lemma load_entry_mounted w server_config st :
  descriptors_mounted st →
  descriptors_mounted (state_of (load_entry w server_config st)).
Proof.
  intros Hst. unfold load_entry.
  destruct (server_config !! "name") as [name|] eqn:Hn; [|done].
  destruct (server_config !! "type") as [ty|] eqn:Hty; [|done].
  pose proof descriptors_mounted_add_log as Hlog.
  destruct (j_is "proxy" ty) eqn:Hp.
  - destruct (server_config !! "url") as [url|] eqn:Hurl;
      [|by apply Hlog].
    destruct (bearer_headers _ _) as [headers|]; [|by apply Hlog].
    destruct (proxy_mounts w url name _); [|by apply Hlog, Hlog].
    apply store_descriptor_mounted_inv.
    + apply Hlog. eapply descriptors_mounted_grow; [..|apply Hlog, Hst];
        [done|reflexivity].
    + intros n ->. split.
      * intros _. eexists url, _. split; [done|]. simpl.
        apply elem_of_app. right. by apply list_elem_of_singleton.
      * unfold has_type. rewrite Hty, Hp. done.
  - destruct (j_is "module" ty) eqn:Hm.
    + destruct (default _ _) as [x|vars]; [by apply Hlog, Hlog|].
      assert (descriptors_mounted
                (set_environ (inject_envvars vars
                                (environ (add_log (LogRegistering name) st)))
                   (add_log (LogRegistering name) st))) as Hst'.
      { eapply (descriptors_mounted_grow _ _ []); [done| |apply Hst].
        by rewrite app_nil_r. }
      destruct (module_mounts _ _ _); try (by apply Hlog).
      apply store_descriptor_mounted_inv.
      * apply Hlog. eapply descriptors_mounted_grow; [..|apply Hst'];
          [done|reflexivity].
      * intros n ->. split.
        -- unfold has_type. rewrite Hty, Hp. done.
        -- intros _ _. eexists. simpl.
           apply elem_of_app. right. by apply list_elem_of_singleton.
    + apply store_descriptor_mounted_inv; [by apply Hlog|].
      intros n ->. split; unfold has_type; rewrite Hty, ?Hp, ?Hm; done.
Qed.

(** X17.  No descriptor without a mount: after loading from startup, every
    Proxy descriptor in the state store has a proxy attached to the
    gateway under its name, with a client built from the descriptor's url,
    and every Module descriptor has a module attached under its name. *)
Theorem X17_registered_children_are_mounted (w : world)
    (config : option (list entry)) (env : gmap string string) :
  descriptors_mounted (load_child_servers w config (loader_start env)).
Proof.
  assert (descriptors_mounted (loader_start env)) as Hstart.
  { intros name info Hinfo. simpl in Hinfo. by rewrite lookup_empty in Hinfo. }
  destruct config as [entries|]; simpl; [|done].
  apply (load_entries_invariant descriptors_mounted).
  - intros ev st H. by apply descriptors_mounted_add_log.
  - intros c st H. by apply load_entry_mounted.
  - exact Hstart.
Qed.

Lemma malformed_entry_aborts w server_config :
  server_config !! "name" = None ∨ server_config !! "type" = None →
  ∃ e, ∀ st, load_entry w server_config st = Abort e st.
Proof.
  intros [Hn|Ht]; unfold load_entry.
  - exists (KeyError "name"). intros st. by rewrite Hn.
  - destruct (server_config !! "name") as [name|].
    + exists (KeyError "type"). intros st. by rewrite Ht.
    + exists (KeyError "name"). done.
Qed.

(** X18.  Nothing after an entry that lacks [name] or [type] is loaded:
    whatever entries follow it in the configuration, the result of loading
    is the result of loading the entries up to and including it. *)
Theorem X18_entries_after_malformed_ignored (w : world)
    (pre post : list entry) (bad : entry) (st : loader_state) :
  bad !! "name" = None ∨ bad !! "type" = None →
  load_child_servers w (Some (pre ++ bad :: post)%list) st
    = load_child_servers w (Some (pre ++ [bad])%list) st.
Proof.
  intros Hbad. destruct (malformed_entry_aborts w bad Hbad) as [e He].
  simpl. revert st. induction pre as [|c pre IH]; intros st; simpl.
  - by rewrite He.
  - destruct (load_entry w c st); [apply IH|done].
Qed.

Lemma X18_entries_after_malformed_ignored_witness :
  (nameless_entry !! "name" = None ∨ nameless_entry !! "type" = None) ∧
  load_child_servers world_mounting
    (Some ([ado_entry] ++ nameless_entry
             :: [module_entry "docs" "mcp_server"])%list)
    (loader_start ∅)
  = load_child_servers world_mounting
      (Some ([ado_entry] ++ [nameless_entry])%list) (loader_start ∅).
Proof.
  assert (nameless_entry !! "name" = None ∨ nameless_entry !! "type" = None)
    as Hbad by (left; reflexivity).
  split; [exact Hbad|].
  exact (X18_entries_after_malformed_ignored world_mounting [ado_entry]
           [module_entry "docs" "mcp_server"] nameless_entry
           (loader_start ∅) Hbad).
Defined.

(** A well-formed Proxy entry whose mount succeeds is recorded under its
    name, and one more proxy, built from its url, is attached. *)
Lemma proxy_entry_recorded w server_config st n url headers :
  server_config !! "name" = Some (JStr n) →
  server_config !! "type" = Some (JStr "proxy") →
  server_config !! "url" = Some url →
  bearer_headers (environ st) server_config = Val headers →
  proxy_mounts w url (JStr n)
    (default (JStr "") (server_config !! "prefix")) = true →
  ∃ st', load_entry w server_config st = Next st' ∧
         child_servers (gw st')
           = <[n := server_config]> (child_servers (gw st)) ∧
         mounted st'
           = (mounted st ++
              [MountProxy (ProxyClient_of_url url) (JStr n)
                 (default (JStr "") (server_config !! "prefix"))])%list ∧
         environ st' = environ st.
Proof.
  intros Hn Hty Hurl Hh Hm. eexists. split.
  - unfold load_entry. rewrite Hn, Hty, Hurl. simpl. rewrite Hh, Hm.
    reflexivity.
  - done.
Qed.

(** X19.  Names are not checked for uniqueness: when the configuration
    holds two well-formed Proxy entries of the same name, one after the
    other, and both mounts succeed, both proxies are attached to the
    gateway, in order, and the state store keeps the descriptor of the
    second entry only. *)
Theorem X19_duplicate_name_last_wins (w : world) (first second : entry)
    (st : loader_state) (n : string) (url1 url2 : jval)
    (headers1 headers2 : gmap string string) :
  first !! "name" = Some (JStr n) →
  first !! "type" = Some (JStr "proxy") →
  first !! "url" = Some url1 →
  bearer_headers (environ st) first = Val headers1 →
  proxy_mounts w url1 (JStr n) (default (JStr "") (first !! "prefix")) = true →
  second !! "name" = Some (JStr n) →
  second !! "type" = Some (JStr "proxy") →
  second !! "url" = Some url2 →
  bearer_headers (environ st) second = Val headers2 →
  proxy_mounts w url2 (JStr n) (default (JStr "") (second !! "prefix")) = true →
  let st' := load_child_servers w (Some [first; second]) st in
  child_servers (gw st') !! n = Some second ∧
  (∀ other, other ≠ n →
            child_servers (gw st') !! other = child_servers (gw st) !! other) ∧
  mounted st'
    = (mounted st ++
       [MountProxy (ProxyClient_of_url url1) (JStr n)
          (default (JStr "") (first !! "prefix"));
        MountProxy (ProxyClient_of_url url2) (JStr n)
          (default (JStr "") (second !! "prefix"))])%list.
Proof.
  intros Hn1 Ht1 Hu1 Hh1 Hm1 Hn2 Ht2 Hu2 Hh2 Hm2. cbv zeta.
  destruct (proxy_entry_recorded w first st n url1 headers1 Hn1 Ht1 Hu1 Hh1 Hm1)
    as (st1 & E1 & Hc1 & Hmo1 & He1).
  rewrite <- He1 in Hh2.
  destruct (proxy_entry_recorded w second st1 n url2 headers2 Hn2 Ht2 Hu2 Hh2 Hm2)
    as (st2 & E2 & Hc2 & Hmo2 & He2).
  simpl. rewrite E1, E2. split_and!.
  - by rewrite Hc2, lookup_insert_eq.
  - intros other Hne. by rewrite Hc2, Hc1, !lookup_insert_ne.
  - by rewrite Hmo2, Hmo1, <- app_assoc.
Qed.

Lemma X19_duplicate_name_last_wins_witness :
  let second : entry :=
    <["url" := JStr "http://localhost:9000/mcp"]> ado_entry in
  let st' := load_child_servers world_mounting (Some [ado_entry; second])
               (loader_start ∅) in
  second !! "name" = Some (JStr "ado") ∧
  child_servers (gw st') !! "ado" = Some second ∧
  (∀ other, other ≠ "ado" →
            child_servers (gw st') !! other
              = child_servers (gw (loader_start ∅)) !! other) ∧
  mounted st'
    = (mounted (loader_start ∅) ++
       [MountProxy (ProxyClient_of_url (JStr "http://localhost:8002/mcp"))
          (JStr "ado") (default (JStr "") (ado_entry !! "prefix"));
        MountProxy (ProxyClient_of_url (JStr "http://localhost:9000/mcp"))
          (JStr "ado") (default (JStr "") (second !! "prefix"))])%list.
Proof.
  cbv zeta. split; [reflexivity|].
  apply (X19_duplicate_name_last_wins world_mounting ado_entry
           (<["url" := JStr "http://localhost:9000/mcp"]> ado_entry)
           (loader_start ∅) "ado" (JStr "http://localhost:8002/mcp")
           (JStr "http://localhost:9000/mcp") ∅ ∅);
    reflexivity.
Defined.



(** ** Connection tracker, over a sequence of requests *)

Lemma track_response_lookup now sc s k :
  active_connections (track_response now sc s) !! k =
    if String.eqb (scope_type sc) "http" && String.eqb k (client_addr sc)
    then (λ c, {| connected_at := connected_at c; last_seen := now;
                  requests := requests c |}) <$> active_connections s !! k
    else active_connections s !! k.
Proof.
  unfold track_response. destruct (String.eqb (scope_type sc) "http"); [|done].
  simpl. destruct (String.eqb_spec k (client_addr sc)) as [->|Hne].
  - destruct (active_connections s !! client_addr sc) as [c|] eqn:Hc.
    + simpl. by rewrite lookup_insert_eq.
    + by rewrite Hc.
  - destruct (active_connections s !! client_addr sc) as [c|]; [|done].
    simpl. by rewrite lookup_insert_ne.
Qed.

Lemma track_request_lookup now sc s k :
  active_connections (track_request now sc s) !! k =
    if tracked sc && String.eqb (client_addr sc) k
    then Some {| connected_at := now; last_seen := now;
                 requests := requests_of s k + 1 |}
    else active_connections s !! k.
Proof.
  unfold track_request, tracked, requests_of.
  destruct (String.eqb (scope_type sc) "http"); [|done].
  destruct (String.eqb (path sc) "/mcp" && String.eqb (method sc) "POST");
    [|done].
  simpl. destruct (String.eqb_spec (client_addr sc) k) as [<-|Hne].
  - by rewrite lookup_insert_eq.
  - by rewrite lookup_insert_ne.
Qed.

Lemma handle_request_requests r s addr :
  requests_of (handle_request r s) addr =
    requests_of s addr +
    (if tracked (req_scope r) && String.eqb (client_addr (req_scope r)) addr
     then 1 else 0) ∧
  (is_Some (active_connections (handle_request r s) !! addr) ↔
   is_Some (active_connections s !! addr) ∨
   tracked (req_scope r) && String.eqb (client_addr (req_scope r)) addr = true).
Proof.
  unfold handle_request, requests_of.
  rewrite track_response_lookup, track_request_lookup. unfold requests_of.
  destruct (tracked (req_scope r) &&
            String.eqb (client_addr (req_scope r)) addr);
    destruct (String.eqb (scope_type (req_scope r)) "http" &&
              String.eqb addr (client_addr (req_scope r)));
    destruct (active_connections s !! addr) as [c|]; simpl;
    (split; [lia|]); rewrite !is_Some_alt; intuition discriminate.
Qed.

Lemma tracked_from_cons addr r reqs :
  tracked_from addr (r :: reqs) =
    (if tracked (req_scope r) && String.eqb (client_addr (req_scope r)) addr
     then 1 else 0) + tracked_from addr reqs.
Proof.
  unfold tracked_from. simpl List.filter.
  destruct (_ && _); rewrite ?length_cons; lia.
Qed.

Lemma handle_all_requests reqs : ∀ s addr,
  requests_of (handle_all reqs s) addr
    = requests_of s addr + tracked_from addr reqs ∧
  (is_Some (active_connections (handle_all reqs s) !! addr) ↔
   is_Some (active_connections s !! addr) ∨ 0 < tracked_from addr reqs).
Proof.
  induction reqs as [|r reqs IH]; intros s addr.
  - unfold tracked_from. simpl. split; [lia|]. split; [by left|].
    intros [?|?]; [done|lia].
  - simpl. destruct (IH (handle_request r s) addr) as [Hreq Hsome].
    destruct (handle_request_requests r s addr) as [Hreq1 Hsome1].
    rewrite tracked_from_cons. split.
    + rewrite Hreq, Hreq1. lia.
    + rewrite Hsome, Hsome1.
      assert (0 ≤ tracked_from addr reqs) by (unfold tracked_from; lia).
      destruct (_ && _); intuition (try done; try lia).
Qed.

(** X21.  Requests served one after the other from startup, with no
    clean-up in between: the request count kept for a client address is
    the number of HTTP [POST /mcp] requests received from that address, and
    an address has a connection record exactly when at least one such
    request came from it.  Requests to other paths, with other methods or
    of other scope types are not counted and create no record. *)
Theorem X21_requests_counted_per_client (t0 t1 : Z)
    (reqs : list http_request) (addr : string) :
  let s' := handle_all reqs (initial_state t0 t1) in
  requests_of s' addr = tracked_from addr reqs ∧
  (is_Some (active_connections s' !! addr) ↔ 0 < tracked_from addr reqs).
Proof.
  cbv zeta.
  destruct (handle_all_requests reqs (initial_state t0 t1) addr)
    as [Hreq Hsome].
  split.
  - rewrite Hreq. unfold requests_of. simpl. by rewrite lookup_empty.
  - rewrite Hsome. simpl. rewrite lookup_empty. split; [|by right].
    intros [[? ?]|?]; done.
Qed.

(** X22.  A client seen within the idle window is not pruned: after an
    HTTP [POST /mcp] at instant [now], the clean-up of the info panel at
    any instant up to 30 seconds later still lists the client. *)
Theorem X22_tracked_client_survives_cleanup (now now' : Z) (sc : scope)
    (s : GatewayState) :
  tracked sc = true →
  now' - now ≤ idle_threshold_us →
  client_addr sc ∈ (make_info_panel now' (track_request now sc s)).1.
Proof.
  intros Ht Hwin. apply make_info_panel_clients.
  eexists. split.
  - rewrite track_request_lookup, Ht, String.eqb_refl. reflexivity.
  - unfold idle. simpl. by apply Z.ltb_ge.
Qed.

Lemma X22_tracked_client_survives_cleanup_witness :
  tracked mcp_post = true ∧
  30000000 - 0 ≤ idle_threshold_us ∧
  client_addr mcp_post
    ∈ (make_info_panel 30000000 (track_request 0 mcp_post (initial_state 0 0))).1.
Proof.
  assert (30000000 - 0 ≤ idle_threshold_us) as Hwin
    by (unfold idle_threshold_us; lia).
  split; [reflexivity|]. split; [exact Hwin|].
  exact (X22_tracked_client_survives_cleanup 0 30000000 mcp_post
           (initial_state 0 0) eq_refl Hwin).
Defined.



(** ** Dashboard clean-up *)

Lemma prune_connections_lookup now conns k :
  prune_connections now conns !! k =
    match conns !! k with
    | Some c => if idle now c then None else Some c
    | None => None
    end.
Proof.
  unfold prune_connections. rewrite prune_loop_lookup.
  destruct (conns !! k) as [c|] eqn:Hc; [|done].
  rewrite decide_True; [done|].
  apply list_elem_of_fmap. exists (k, c). split; [done|].
  by apply elem_of_map_to_list.
Qed.

(** X24.  The clean-up of the info panel keeps a connection, unchanged,
    exactly when its last_seen is at most 30 seconds (30 000 000
    microseconds) before the current time, and drops it otherwise; the
    rest of the gateway state is left as it is. *)
Theorem X24_cleanup_drops_exactly_idle (now : Z) (s : GatewayState)
    (k : string) :
  let s' := (make_info_panel now s).2 in
  active_connections s' !! k =
    match active_connections s !! k with
    | Some c => if 30000000 <? now - last_seen c then None else Some c
    | None => None
    end ∧
  child_servers s' = child_servers s ∧ metrics s' = metrics s ∧
  request_count s' = request_count s ∧ error_count s' = error_count s.
Proof.
  cbv zeta. split; [|done].
  unfold make_info_panel. simpl. by rewrite prune_connections_lookup.
Qed.

Lemma prune_connections_later now now' conns :
  now ≤ now' →
  prune_connections now' (prune_connections now conns)
    = prune_connections now' conns.
Proof.
  intros Hle. apply map_eq. intros k.
  rewrite !prune_connections_lookup.
  destruct (conns !! k) as [c|]; [|done]. unfold idle.
  destruct (idle_threshold_us <? now - last_seen c) eqn:H1; [|done].
  apply Z.ltb_lt in H1.
  destruct (idle_threshold_us <? now' - last_seen c) eqn:H2; [done|].
  apply Z.ltb_ge in H2. lia.
Qed.

(** X25.  Clean-ups compose: pruning at some instant and then again at the
    same or a later instant gives the same panel and the same state as
    pruning once at the later instant.  In particular a second refresh at
    the same instant changes nothing. *)
Theorem X25_cleanup_composes (now now' : Z) (s : GatewayState) :
  now ≤ now' →
  make_info_panel now' (make_info_panel now s).2 = make_info_panel now' s.
Proof.
  intros Hle. unfold make_info_panel. simpl.
  by rewrite (prune_connections_later now now' _ Hle).
Qed.

Lemma X25_cleanup_composes_witness :
  let s := set_active_connections
             (<["10.0.0.2:6000" :=
                  {| connected_at := 0; last_seen := 20000000; requests := 1 |}]>
                {[ "10.0.0.1:5000" :=
                     {| connected_at := 0; last_seen := 0; requests := 1 |} ]})
             (initial_state 0 0) in
  31000000 ≤ 45000000 ∧
  make_info_panel 45000000 (make_info_panel 31000000 s).2
    = make_info_panel 45000000 s.
Proof.
  cbv zeta. split; [lia|].
  apply (X25_cleanup_composes 31000000 45000000). lia.
Defined.



(** ** Aggregate status *)






Example status_after_one_observation :
  let s := (update_metrics "ado" (5 # 3) "healthy" "t" two_children_state).2 in
  metric_of (status s).2 "ado" "average_latency_ms" = Some (PFloat (167 # 100)) ∧
  metric_of s "ado" "average_latency_ms" = None.
Proof. split; vm_compute; reflexivity. Qed.

(** ** The prober and the recorder together *)

(** X28.  The first probe of a Proxy child spoils its record for the
    recorder: when a Proxy child has no metrics record, a run of the
    prober creates one without request_count, whatever the probe returns,
    and from then on every [update_metrics] call for that child raises
    [KeyError] and records nothing. *)
Theorem X28_probe_before_observation (net : network) (now : string)
    (s : GatewayState) (name : string) (info : entry) :
  typed_children s →
  child_servers s !! name = Some info →
  has_type "proxy" info = true →
  metrics s !! name = None →
  ∃ s', check_server_connections net now s = (Val tt, s') ∧
        is_Some (metrics s' !! name) ∧
        metric_of s' name "request_count" = None ∧
        ∀ latency status now',
          update_metrics name latency status now' s'
            = (Exc (KeyError "request_count"), s').
Proof.
  intros Htyped Hinfo Hp Hnone.
  destruct (check_server_connections_frame net now s Htyped)
    as (s' & Hrun & _ & Hall).
  specialize (Hall name). rewrite Hinfo, Hp, Hnone in Hall.
  destruct Hall as (r & Hr & Hkeys).
  assert (r !! "request_count" = None) as Hk.
  { rewrite Hkeys by done. simpl. apply lookup_empty. }
  exists s'. split_and!.
  - done.
  - by rewrite Hr.
  - unfold metric_of. by rewrite Hr.
  - intros latency status now'.
    unfold update_metrics, bind at 1, setdefault_record.
    rewrite Hr. unfold bind at 1, iadd_item. by rewrite Hr, Hk.
Qed.

Lemma one_proxy_state_typed : typed_children one_proxy_state.
Proof.
  intros name info H. unfold one_proxy_state in H. simpl in H.
  apply lookup_singleton_Some in H as [<- <-]. by eexists.
Defined.

Lemma X28_probe_before_observation_witness :
  typed_children one_proxy_state ∧
  ∃ s', check_server_connections net_down "t" one_proxy_state = (Val tt, s') ∧
        is_Some (metrics s' !! "ado") ∧
        metric_of s' "ado" "request_count" = None ∧
        ∀ latency status now',
          update_metrics "ado" latency status now' s'
            = (Exc (KeyError "request_count"), s').
Proof.
  split; [exact one_proxy_state_typed|].
  exact (X28_probe_before_observation net_down "t" one_proxy_state "ado"
           (proxy_entry "ado" "http://localhost:8002/mcp")
           one_proxy_state_typed eq_refl eq_refl eq_refl).
Defined.
